(** * teuthology.orchestra.console: power management of a test machine

    A shallow embedding of [teuthology/orchestra/console.py].  The two
    classes of the module, [PhysicalConsole] (ipmitool driven through
    pexpect) and [VirtualConsole] (libvirt), become two Rocq modules of the
    same names; each method keeps its Python name.

    Time is rational ([Q]): [time.time()] reads a clock that only
    [expect] and [time.sleep] move.  Python exceptions are values of [Exc];
    a method is a function from the world before the call to an outcome and
    the world after it. *)

From Stdlib Require Import String List Bool Arith ZArith NArith QArith Qround Lqa Lia.
Import ListNotations.

Set Warnings "-register-all".


Open Scope string_scope.
Open Scope Q_scope.

(** ** Python values that the module manipulates *)

Module Py.

(** [a or b] on values that are a string or [None]: the empty string and
    [None] are falsy. *)
Definition or_str (a b : option string) : option string :=
  match a with
  | Some s => if String.eqb s EmptyString then b else Some s
  | None => b
  end.

(** [a or b] where [a] is a number or [None] and [b] a number: zero and
    [None] are falsy. *)
Definition or_num (a : option Q) (b : Q) : Q :=
  match a with
  | Some x => if Qeq_bool x 0 then b else x
  | None => b
  end.

(** [x is not None] *)
Definition is_not_None {A : Type} (x : option A) : bool :=
  match x with Some _ => true | None => false end.

(** [all(xs)] on a list of booleans *)
Definition all (xs : list bool) : bool := forallb (fun b => b) xs.

(** what [str.format] prints for a value that is a string or [None] *)
Definition fmt (x : option string) : string :=
  match x with Some s => s | None => "None" end.

(** [x < y] on numbers *)
Definition lt (x y : Q) : bool := negb (Qle_bool y x).

(** The exceptions that can cross a method boundary of the module. *)
Inductive Exc : Type :=
| ConsoleError (msg : string)
| PexpectTIMEOUT
| PexpectEOF
| IOError
| RuntimeError (msg : string)
| TypeError
| AttributeError (attr : string)
| KeyError (key : string)
| IndexError
| UnboundLocalError (var : string)
| LibvirtError.

(** How a call ends: it returns, it raises, or the embedding ran out of
    fuel inside a [while] loop. *)
Inductive Outcome (A : Type) : Type :=
| Ret (a : A)
| Raise (e : Exc)
| OutOfFuel.
Arguments Ret {A} a.
Arguments Raise {A} e.
Arguments OutOfFuel {A}.


(** A method call on a world of type [W]: the outcome and the world the
    call leaves behind. *)
Definition St (W A : Type) : Type := W -> Outcome A * W.

Definition ret {W A : Type} (a : A) : St W A := fun w => (Ret a, w).

Definition raise {W A : Type} (e : Exc) : St W A := fun w => (Raise e, w).

Definition out_of_fuel {W A : Type} : St W A := fun w => (OutOfFuel, w).

Definition bind {W A B : Type} (m : St W A) (k : A -> St W B) : St W B :=
  fun w =>
    match m w with
    | (Ret a, w') => k a w'
    | (Raise e, w') => (Raise e, w')
    | (OutOfFuel, w') => (OutOfFuel, w')
    end.

(** [try: m] with [except E as e: h e] for the exceptions [e] that
    [handles] accepts; the others pass through. *)
Definition try_except {W A : Type} (handles : Exc -> bool) (m : St W A)
           (h : Exc -> St W A) : St W A :=
  fun w =>
    match m w with
    | (Raise e, w') => if handles e then h e w' else (Raise e, w')
    | r => r
    end.

(** [except Exception]: every exception of [Exc] is one. *)
Definition Exception (e : Exc) : bool := true.

(** A pure step that may raise, run inside a method. *)
Definition lift {W A : Type} (o : Outcome A) : St W A := fun w => (o, w).

End Py.
Import Py.

Declare Scope py_scope.
Notation "x <- m ;; k" := (bind m (fun x => k))
  (at level 61, m at next level, right associativity) : py_scope.
Notation "m ;;; k" := (bind m (fun _ => k))
  (at level 61, right associativity) : py_scope.
Open Scope py_scope.

(** ** The collaborators of the module

    [teuthology.config] supplies the fallback credentials. *)

Record Config : Type := {
  ipmi_user : option string;
  ipmi_password : option string;
  ipmi_domain : option string
}.

(** ** pexpect, the clock and the log

    The outside of the module: the interactive children started with
    [pexpect.spawn], the wall clock, and the logger.  What a child prints is
    not modelled byte by byte: for the n-th wait of a run the world holds a
    [Reply], which says when the awaited marker shows up, when the stream
    closes, or that neither ever happens.  [expect] turns that reply into
    an [ExpectOutcome] under the timeout it was given, pexpect's way: an
    outcome whose class is in the pattern list is returned as its index, an
    outcome whose class is missing from the list is raised, and a timeout
    of -1 stands for the timeout of the child, which is pexpect's default
    of 30 seconds since the module starts its children without one. *)

Module Pexpect.

Inductive Pattern : Type :=
| Str (s : string)
| TIMEOUT
| EOF.

(** A length of time that cannot be negative. *)
Record Delay : Type := { dnum : N; dden : positive }.

Definition seconds (d : Delay) : Q := Z.of_N (dnum d) # dden d.

Definition instantly : Delay := {| dnum := 0; dden := 1 |}.

Inductive Reply : Type :=
| Marker (after : Delay)
| Closed (after : Delay)
| Silent.

Inductive ExpectOutcome : Type :=
| MatchedPattern (index : nat)
| Timeout
| EndOfStream.

Inductive Level : Type := INFO | ERROR.

Inductive Arg : Type :=
| AStr (s : string)
| ANum (q : Q).

(** What the module does to the outside.  A log entry keeps the message
    template and its arguments; [log.debug] entries are left out. *)
Inductive Event : Type :=
| Spawn (child : nat) (command : string)
| Send (child : nat) (s : string)
| Expect (child : nat) (patterns : list Pattern) (timeout : Q)
         (outcome : ExpectOutcome)
| Sleep (secs : Q)
| Log (level : Level) (template : string) (args : list Arg).

(** [trace] lists the events oldest first, each with the clock reading at
    which it was completed. *)
Record World : Type := {
  clock : Q;
  replies : nat -> Reply;
  waits : nat;
  children : nat;
  trace : list (Q * Event)
}.

Definition M (A : Type) : Type := St World A.

Definition record (e : Event) (w : World) : World :=
  {| clock := clock w; replies := replies w; waits := waits w;
     children := children w; trace := trace w ++ [(clock w, e)] |}.

Definition advance (d : Q) (w : World) : World :=
  {| clock := clock w + d; replies := replies w; waits := waits w;
     children := children w; trace := trace w |}.

Definition emit (e : Event) : M unit := fun w => (Ret tt, record e w).

(** [time.time()] *)
Definition time : M Q := fun w => (Ret (clock w), w).

(** The world after a sleep of [secs]. *)
Definition slept (secs : Q) (w : World) : World :=
  record (Sleep secs) (advance secs w).

(** A length that fits the seconds field of the sleep of every platform. *)
Definition longest_sleep : Q := 2147483647.

(** [time.sleep(secs)]; Python 2 refuses a negative length.  A length
    above [longest_sleep] may be out of the range of the platform's sleep,
    which raises then; the model takes every length that is not negative. *)
Definition sleep (secs : Q) : M unit :=
  if lt secs 0 then raise IOError
  else fun w => (Ret tt, slept secs w).

Definition log (level : Level) (template : string) (args : list Arg) : M unit :=
  emit (Log level template args).

(** The world after a child was started with [command]; the child is
    numbered by the count of children started before it. *)
Definition born (command : string) (w : World) : World :=
  record (Spawn (children w) command)
    {| clock := clock w; replies := replies w; waits := waits w;
       children := S (children w); trace := trace w |}.

(** [pexpect.spawn(command)], in the runs that the model covers: those in
    which the command can be started.  Where the executable cannot be
    found or run, [pexpect.spawn] raises ExceptionPexpect and the method
    that called it ends there. *)
Definition spawn (command : string) : M nat :=
  fun w => (Ret (children w), born command w).

(** [child.send(s)] *)
Definition send (child : nat) (s : string) : M unit := emit (Send child s).

Fixpoint position (p : Pattern -> bool) (l : list Pattern) : option nat :=
  match l with
  | [] => None
  | x :: l' => if p x then Some O else option_map S (position p l')
  end.

Definition is_Str (p : Pattern) : bool :=
  match p with Str _ => true | _ => false end.
Definition is_TIMEOUT (p : Pattern) : bool :=
  match p with TIMEOUT => true | _ => false end.
Definition is_EOF (p : Pattern) : bool :=
  match p with EOF => true | _ => false end.

(** The length of a wait that ran into its timeout. *)
Definition whole (timeout : Q) : Q := if Qle_bool 0 timeout then timeout else 0.

(** The timeout of a child that [pexpect.spawn] was given none for. *)
Definition child_timeout : Q := 30.

(** The timeout a wait works with: [expect] reads -1 as the child's own. *)
Definition patience (timeout : Q) : Q :=
  if Qeq_bool timeout (-1) then child_timeout else timeout.

(** What a wait that was given [timeout] makes of a reply, and how long it
    lasts. *)
Definition await (patterns : list Pattern) (r : Reply) (timeout : Q)
  : ExpectOutcome * Q :=
  let timeout := patience timeout in
  match r with
  | Marker d =>
      match position is_Str patterns with
      | Some i =>
          if Qle_bool (seconds d) timeout then (MatchedPattern i, seconds d)
          else (Timeout, whole timeout)
      | None => (Timeout, whole timeout)
      end
  | Closed d =>
      if Qle_bool (seconds d) timeout then (EndOfStream, seconds d)
      else (Timeout, whole timeout)
  | Silent => (Timeout, whole timeout)
  end.

(** The world after a wait on [child] that lasted [d] and ended in [o]. *)
Definition heard (child : nat) (patterns : list Pattern) (timeout : Q)
           (o : ExpectOutcome) (d : Q) (w : World) : World :=
  record (Expect child patterns timeout o)
    {| clock := clock w + d; replies := replies w; waits := S (waits w);
       children := children w; trace := trace w |}.

(** [child.expect(patterns, timeout=timeout)] *)
Definition expect (child : nat) (patterns : list Pattern) (timeout : Q) : M nat :=
  fun w =>
    let (o, d) := await patterns (replies w (waits w)) timeout in
    let w' := heard child patterns timeout o d w in
    match o with
    | MatchedPattern i => (Ret i, w')
    | Timeout =>
        match position is_TIMEOUT patterns with
        | Some i => (Ret i, w')
        | None => (Raise PexpectTIMEOUT, w')
        end
    | EndOfStream =>
        match position is_EOF patterns with
        | Some i => (Ret i, w')
        | None => (Raise PexpectEOF, w')
        end
    end.

End Pexpect.
Import Pexpect.


Module PhysicalConsole.

(** The attributes that [__init__] sets. *)
Record t : Type := {
  name : string;
  shortname : string;
  timeout : Q;
  logfile : option string;
  ipmiuser : option string;
  ipmipass : option string;
  ipmidomain : option string;
  has_ipmi_credentials : bool
}.

(** The default of the [timeout] argument of [__init__]. *)
Definition default_timeout : Q := 20.

Section Init.
(** [remote.getShortName] and [teuthology.config.config] *)
Variable getShortName : string -> string.
Variable config : Config.

Definition __init__ (name : string) (ipmiuser ipmipass ipmidomain : option string)
           (logfile : option string) (timeout : Q) : t :=
  let user := or_str ipmiuser (ipmi_user config) in
  let pass := or_str ipmipass (ipmi_password config) in
  let domain := or_str ipmidomain (ipmi_domain config) in
  {| name := name;
     shortname := getShortName name;
     timeout := timeout;
     logfile := None;
     ipmiuser := user;
     ipmipass := pass;
     ipmidomain := domain;
     has_ipmi_credentials :=
       all (map is_not_None [user; pass; domain]) |}.
End Init.

Definition _build_command (self : t) (subcommand : string) : string :=
  "ipmitool -H " ++ shortname self ++ "." ++ fmt (ipmidomain self)
    ++ " -I lanplus -U " ++ fmt (ipmiuser self)
    ++ " -P " ++ fmt (ipmipass self) ++ " " ++ subcommand.

Definition _check_credentials (self : t) : M unit :=
  if negb (has_ipmi_credentials self) then
    log ERROR
      "Must set ipmi_user, ipmi_password, and ipmi_domain in .teuthology.yaml" []
  else ret tt.

Definition _pexpect_spawn (self : t) (cmd : string) : M nat :=
  _check_credentials self ;;;
  let full_command := _build_command self cmd in
  child <- spawn full_command ;;
  ret child.

Definition _exit_session (self : t) (child : nat) (timeout : option Q) : M unit :=
  send child "~." ;;;
  let t := or_num timeout (PhysicalConsole.timeout self) in
  r <- expect child [Str "terminated ipmitool"; TIMEOUT; EOF] t ;;
  if negb (r =? 0)%nat then
    _ <- _pexpect_spawn self "sol deactivate" ;; ret tt
  else ret tt.

(** One pass through the body of the [while] loop of [_wait_for_login],
    from the spawn to the call of [_exit_session]; the result is [r]. *)
Definition login_session (self : t) (t start : Q) : M nat :=
  child <- _pexpect_spawn self "sol activate" ;;
  send child (String (Ascii.ascii_of_nat 10) EmptyString) ;;;
  now <- time ;;
  r <- expect child [Str (shortname self ++ " login: "); TIMEOUT; EOF]
         (t - (now - start)) ;;
  _exit_session self child None ;;;
  ret r.

(** The [while time.time() - start < t] loop of [_wait_for_login]: [true]
    stands for the [return] inside it, [false] for leaving the loop
    because the time is up. *)
Fixpoint _wait_for_login_while (fuel : nat) (self : t) (t start : Q) : M bool :=
  match fuel with
  | O => out_of_fuel
  | S fuel' =>
      now <- time ;;
      if lt (now - start) t then
        r <- login_session self t start ;;
        if (r =? 0)%nat then ret true
        else _wait_for_login_while fuel' self t start
      else ret false
  end.

(** The [for i in range(0, attempts)] loop and the [raise] after it. *)
Fixpoint _wait_for_login_for (fuel : nat) (self : t) (t : Q) (attempts : nat)
  : M unit :=
  match attempts with
  | O => raise (ConsoleError ("Did not get a login prompt from " ++ name self ++ "!"))
  | S attempts' =>
      start <- time ;;
      returned <- _wait_for_login_while fuel self t start ;;
      if returned then ret tt
      else _wait_for_login_for fuel self t attempts'
  end.

Definition default_attempts : nat := 2.

Definition _wait_for_login (fuel : nat) (self : t) (timeout : option Q)
           (attempts : nat) : M unit :=
  let t := or_num timeout (PhysicalConsole.timeout self) in
  _wait_for_login_for fuel self t attempts.

(** The [while total < timeout] loop of [check_power]. *)
Fixpoint check_power_while (fuel : nat) (self : t) (state : string)
         (timeout t total ta : Q) : M bool :=
  match fuel with
  | O => out_of_fuel
  | S fuel' =>
      if lt total timeout then
        c <- _pexpect_spawn self "power status" ;;
        r <- expect c [Str ("Chassis Power is " ++ state); EOF; TIMEOUT] t ;;
        tb <- time ;;
        if (r =? 0)%nat then ret true
        else
          (if (r =? 1)%nat then
             if lt (tb - ta) t then sleep (t - (tb - ta)) else ret tt
           else ret tt) ;;;
          let ta := tb in
          let t := t * 2 in
          let total := total + t in
          check_power_while fuel' self state timeout t total ta
      else ret false
  end.

Definition check_power (fuel : nat) (self : t) (state : string)
           (timeout : option Q) : M bool :=
  let timeout := or_num timeout (PhysicalConsole.timeout self) in
  let t := 1 in
  let total := t in
  ta <- time ;;
  check_power_while fuel self state timeout t total ta.

(** What [str(e)] shows of an exception in a log entry; only the two
    exceptions that the module raises itself carry a text here. *)
Definition exc_text (e : Exc) : string :=
  match e with
  | ConsoleError msg => msg
  | RuntimeError msg => msg
  | _ => EmptyString
  end.

Definition check_status (fuel : nat) (self : t) (timeout : option Q) : M bool :=
  try_except Exception
    (_wait_for_login fuel self timeout default_attempts ;;; ret true)
    (fun e =>
       log INFO "Failed to get ipmi console status for {s}: {e}"
         [AStr (shortname self); AStr (exc_text e)] ;;;
       ret false).

Definition power_cycle (fuel : nat) (self : t) : M unit :=
  log INFO "Power cycling {s}" [AStr (shortname self)] ;;;
  child <- _pexpect_spawn self "power cycle" ;;
  _ <- expect child [Str "Chassis Power Control: Cycle"]
         (PhysicalConsole.timeout self) ;;
  _wait_for_login fuel self (Some 300) default_attempts ;;;
  log INFO "Power cycle for {s} completed" [AStr (shortname self)].

(** The loop that [hard_reset], [power_on] and [power_off] each write out:
    [while time.time() - start < self.timeout], spawn [cmd], wait for
    [marker] or the end of the stream, [break] on the marker. *)
Fixpoint command_while (fuel : nat) (self : t) (start : Q) (cmd marker : string)
  : M unit :=
  match fuel with
  | O => out_of_fuel
  | S fuel' =>
      now <- time ;;
      if lt (now - start) (PhysicalConsole.timeout self) then
        child <- _pexpect_spawn self cmd ;;
        r <- expect child [Str marker; EOF] (PhysicalConsole.timeout self) ;;
        if (r =? 0)%nat then ret tt
        else command_while fuel' self start cmd marker
      else ret tt
  end.

Definition hard_reset (fuel : nat) (self : t) : M unit :=
  log INFO "Performing hard reset of {s}" [AStr (shortname self)] ;;;
  start <- time ;;
  command_while fuel self start "power reset" "Chassis Power Control: Reset" ;;;
  _wait_for_login fuel self None default_attempts ;;;
  log INFO "Hard reset for {s} completed" [AStr (shortname self)].

Definition power_on (fuel : nat) (self : t) : M unit :=
  log INFO "Power on {s}" [AStr (shortname self)] ;;;
  start <- time ;;
  command_while fuel self start "power on" "Chassis Power Control: Up/On" ;;;
  ok <- check_power fuel self "on" None ;;
  (if negb ok then log ERROR "Failed to power on {s}" [AStr (shortname self)]
   else ret tt) ;;;
  log INFO "Power on for {s} completed" [AStr (shortname self)].

Definition power_off (fuel : nat) (self : t) : M unit :=
  log INFO "Power off {s}" [AStr (shortname self)] ;;;
  start <- time ;;
  command_while fuel self start "power off" "Chassis Power Control: Down/Off" ;;;
  ok <- check_power fuel self "off" (Some 60) ;;
  (if negb ok then log ERROR "Failed to power off {s}" [AStr (shortname self)]
   else ret tt) ;;;
  log INFO "Power off for {s} completed" [AStr (shortname self)].

Definition default_interval : Q := 30.

Definition power_off_for_interval (fuel : nat) (self : t) (interval : Q) : M unit :=
  log INFO "Power off {s} for {i} seconds" [AStr (shortname self); ANum interval] ;;;
  child <- _pexpect_spawn self "power off" ;;
  _ <- expect child [Str "Chassis Power Control: Down/Off"]
         (PhysicalConsole.timeout self) ;;
  sleep interval ;;;
  child <- _pexpect_spawn self "power on" ;;
  _ <- expect child [Str "Chassis Power Control: Up/On"]
         (PhysicalConsole.timeout self) ;;
  _wait_for_login fuel self None default_attempts ;;;
  log INFO "Power off for {i} seconds completed"
    [AStr (shortname self); ANum interval].

(** [spawn_sol_log] hands a command line to [subprocess.Popen] and returns
    the process; it waits for nothing and is left out. *)

End PhysicalConsole.

(** ** libvirt and the objects the virtual console handles

    [VirtualConsole] reads a status record that comes from
    [lockstatus.get_status] and talks to libvirt.  Its statements subscript,
    call and read attributes of values whose kind is only known when the
    program runs, so the values are kept as a small universe with Python's
    rules for attribute access, subscripting and calls. *)

Module Libvirt.

Definition VIR_DOMAIN_RUNNING : Z := 1.
Definition VIR_DOMAIN_BLOCKED : Z := 2.
Definition VIR_DOMAIN_PAUSED : Z := 3.
Definition VIR_DOMAIN_SHUTOFF : Z := 5.

Inductive Value : Type :=
| VNone
| VBool (b : bool)
| VInt (z : Z)
| VStr (s : string)
| VList (xs : list Value)
| VDict (items : list (string * Value))
| VConnect (host : string)
| VDomain (host : string) (id : Z)
| VMethod (self : Value) (method : string).

(** A domain as the hypervisor of one host holds it; [dom_state] is the
    first entry of what [info()] returns. *)
Record Domain : Type := {
  dom_id : Z;
  dom_name : string;
  dom_state : Z;
  dom_max_mem : Z;
  dom_memory : Z;
  dom_vcpus : Z;
  dom_cpu_time : Z
}.

Inductive Call : Type :=
| COpen (host : string)
| CListDomainsID (host : string)
| CLookupByID (host : string) (id : Z)
| CName (host : string) (id : Z)
| CInfo (host : string) (id : Z)
| CCreate (host : string) (id : Z)
| CDestroy (host : string) (id : Z)
| CSleep (secs : Q)
| CLog (template : string) (args : list Arg).

(** The hypervisors by host name, and the calls made so far, oldest
    first. *)
Record Hyper : Type := {
  hosts : list (string * list Domain);
  calls : list Call
}.

Definition H (A : Type) : Type := St Hyper A.

Definition called (c : Call) : H unit :=
  fun h => (Ret tt, {| hosts := hosts h; calls := calls h ++ [c] |}).

Fixpoint assoc {A : Type} (k : string) (l : list (string * A)) : option A :=
  match l with
  | [] => None
  | (k', v) :: l' => if String.eqb k k' then Some v else assoc k l'
  end.

Definition find_domain (id : Z) (ds : list Domain) : option Domain :=
  find (fun d => Z.eqb (dom_id d) id) ds.

Definition domain_of (host : string) (id : Z) (h : Hyper) : option Domain :=
  match assoc host (hosts h) with
  | Some ds => find_domain id ds
  | None => None
  end.

Definition set_state (host : string) (id : Z) (st : Z) (h : Hyper) : Hyper :=
  {| hosts :=
       map (fun hd : string * list Domain =>
              if String.eqb (fst hd) host then
                (fst hd,
                 map (fun d =>
                        if Z.eqb (dom_id d) id then
                          {| dom_id := dom_id d; dom_name := dom_name d;
                             dom_state := st; dom_max_mem := dom_max_mem d;
                             dom_memory := dom_memory d; dom_vcpus := dom_vcpus d;
                             dom_cpu_time := dom_cpu_time d |}
                        else d) (snd hd))
              else hd) (hosts h);
     calls := calls h |}.

(** [s.split(sep)] for a separator of one character *)
Fixpoint split (sep : Ascii.ascii) (s : string) : list string :=
  match s with
  | EmptyString => [EmptyString]
  | String c s' =>
      if Ascii.eqb c sep then EmptyString :: split sep s'
      else
        match split sep s' with
        | [] => [String c EmptyString]
        | x :: xs => String c x :: xs
        end
  end.

(** [bool(v)] *)
Definition truthy (v : Value) : bool :=
  match v with
  | VNone => false
  | VBool b => b
  | VInt z => negb (Z.eqb z 0)
  | VStr s => negb (String.eqb s EmptyString)
  | VList xs => match xs with [] => false | _ => true end
  | VDict items => match items with [] => false | _ => true end
  | _ => true
  end.

Definition has_method (v : Value) (m : string) : bool :=
  match v with
  | VDict _ => String.eqb m "get"
  | VStr _ => String.eqb m "split"
  | VConnect _ => String.eqb m "listDomainsID" || String.eqb m "lookupByID"
  | VDomain _ _ =>
      String.eqb m "name" || String.eqb m "info" || String.eqb m "create"
      || String.eqb m "destroy"
  | _ => false
  end.

(** [v.attr]: a bound method when the class of [v] has one of that name,
    [AttributeError] otherwise. *)
Definition getattr (v : Value) (attr : string) : Outcome Value :=
  if has_method v attr then Ret (VMethod v attr) else Raise (AttributeError attr).

(** [v[k]] *)
Definition getitem (v k : Value) : Outcome Value :=
  match v, k with
  | VDict items, VStr key =>
      match assoc key items with
      | Some x => Ret x
      | None => Raise (KeyError key)
      end
  | VDict _, _ => Raise (KeyError EmptyString)
  | VList xs, VInt i =>
      if Z.ltb i 0 then
        match nth_error (rev xs) (Z.to_nat (- i - 1)) with
        | Some x => Ret x
        | None => Raise IndexError
        end
      else
        match nth_error xs (Z.to_nat i) with
        | Some x => Ret x
        | None => Raise IndexError
        end
  | _, _ => Raise TypeError
  end.

(** [f(args)] *)
Definition call (f : Value) (args : list Value) : H Value :=
  match f, args with
  | VMethod (VDict items) "get", [VStr key; default] =>
      ret (match assoc key items with Some x => x | None => default end)
  | VMethod (VStr s) "split", [VStr (String sep EmptyString)] =>
      ret (VList (map VStr (split sep s)))
  | VMethod (VConnect host) "listDomainsID", [] =>
      called (CListDomainsID host) ;;;
      fun h =>
        match assoc host (hosts h) with
        | Some ds =>
            (Ret (VList
                    (map (fun d => VInt (dom_id d))
                       (filter (fun d => negb (Z.eqb (dom_state d) VIR_DOMAIN_SHUTOFF))
                          ds))), h)
        | None => (Raise LibvirtError, h)
        end
  | VMethod (VConnect host) "lookupByID", [VInt id] =>
      called (CLookupByID host id) ;;;
      fun h =>
        match domain_of host id h with
        | Some _ => (Ret (VDomain host id), h)
        | None => (Raise LibvirtError, h)
        end
  | VMethod (VDomain host id) "name", [] =>
      called (CName host id) ;;;
      fun h =>
        match domain_of host id h with
        | Some d => (Ret (VStr (dom_name d)), h)
        | None => (Raise LibvirtError, h)
        end
  | VMethod (VDomain host id) "info", [] =>
      called (CInfo host id) ;;;
      fun h =>
        match domain_of host id h with
        | Some d =>
            (Ret (VList [VInt (dom_state d); VInt (dom_max_mem d);
                         VInt (dom_memory d); VInt (dom_vcpus d);
                         VInt (dom_cpu_time d)]), h)
        | None => (Raise LibvirtError, h)
        end
  | VMethod (VDomain host id) "create", [] =>
      called (CCreate host id) ;;;
      fun h =>
        match domain_of host id h with
        | Some d =>
            if Z.eqb (dom_state d) VIR_DOMAIN_SHUTOFF
            then (Ret VNone, set_state host id VIR_DOMAIN_RUNNING h)
            else (Raise LibvirtError, h)
        | None => (Raise LibvirtError, h)
        end
  | VMethod (VDomain host id) "destroy", [] =>
      called (CDestroy host id) ;;;
      fun h =>
        match domain_of host id h with
        | Some d =>
            if Z.eqb (dom_state d) VIR_DOMAIN_SHUTOFF
            then (Raise LibvirtError, h)
            else (Ret VNone, set_state host id VIR_DOMAIN_SHUTOFF h)
        | None => (Raise LibvirtError, h)
        end
  | _, _ => raise TypeError
  end.

(** [libvirt.open(name)] *)
Definition open (name : Value) : H Value :=
  match name with
  | VStr host =>
      called (COpen host) ;;;
      fun h =>
        match assoc host (hosts h) with
        | Some _ => (Ret (VConnect host), h)
        | None => (Raise LibvirtError, h)
        end
  | _ => raise TypeError
  end.

(** [a == b] on the values compared in the module *)
Definition eqv (a b : Value) : bool :=
  match a, b with
  | VStr x, VStr y => String.eqb x y
  | VInt x, VInt y => Z.eqb x y
  | VBool x, VBool y => Bool.eqb x y
  | VNone, VNone => true
  | _, _ => false
  end.

End Libvirt.
Import Libvirt.

Module VirtualConsole.

(** The attributes of an instance.  An attribute that [__init__] has not
    assigned is [None] here, and reading it raises [AttributeError]. *)
Record t : Type := {
  shortname : option string;
  connection : option Value;
  vm_domain : option Value
}.

(** [self.<name>] *)
Definition attribute {A : Type} (name : string) (x : option A) : H A :=
  match x with
  | Some v => ret v
  | None => raise (AttributeError name)
  end.

(** Reading the local variable [name] *)
Definition local {A : Type} (name : string) (x : option A) : H A :=
  match x with
  | Some v => ret v
  | None => raise (UnboundLocalError name)
  end.

(** How the [try] block of [__init__] is left: through the [return] of its
    handler, or at its end with the local [phys_host] bound or not. *)
Inductive Flow : Type :=
| Returned
| Fell (phys_host : option Value).

Definition is_TypeError (e : Exc) : bool :=
  match e with TypeError => true | _ => false end.

(** [for x in v]: the elements of a list *)
Definition iter (v : Value) : H (list Value) :=
  match v with
  | VList xs => ret xs
  | _ => raise TypeError
  end.

(** The [for i in self.connection.listDomainsID()] loop: the domain that
    the loop assigns to [self.vm_domain] before its [break], if any. *)
Fixpoint for_domains (connection : Value) (shortname : string) (ids : list Value)
  : H (option Value) :=
  match ids with
  | [] => ret None
  | i :: ids' =>
      lookupByID <- lift (getattr connection "lookupByID") ;;
      d <- call lookupByID [i] ;;
      name <- lift (getattr d "name") ;;
      n <- call name [] ;;
      if eqv n (VStr shortname) then ret (Some d)
      else for_domains connection shortname ids'
  end.

Section Init.
(** whether [import libvirt] succeeded, [remote.getShortName] and
    [lockstatus.get_status] *)
Variable libvirt : bool.
Variable getShortName : string -> string.
Variable get_status : string -> Value.

Definition __init__ (name : string) : H t :=
  if negb libvirt then raise (RuntimeError "libvirt not found")
  else
    let shortname := getShortName name in
    let status_info := get_status shortname in
    flow <- try_except is_TypeError
              (get <- lift (getattr status_info "get") ;;
               is_vm <- call get [VStr "is_vm"; VBool false] ;;
               if truthy is_vm then
                 vm_host <- lift (getitem status_info (VStr "vm_host")) ;;
                 host_name <- lift (getitem vm_host (VStr "name")) ;;
                 split <- lift (getattr host_name "split") ;;
                 parts <- call split [VStr "."] ;;
                 phys_host <- lift (getitem parts (VInt 0)) ;;
                 ret (Fell (Some phys_host))
               else ret (Fell None))
              (fun _ => ret Returned) ;;
    match flow with
    | Returned =>
        ret {| shortname := Some shortname; connection := None;
               vm_domain := None |}
    | Fell phys_host =>
        host <- local "phys_host" phys_host ;;
        connection <- open host ;;
        listDomainsID <- lift (getattr connection "listDomainsID") ;;
        ids <- call listDomainsID [] ;;
        ids <- iter ids ;;
        vm_domain <- for_domains connection shortname ids ;;
        ret {| shortname := Some shortname; connection := Some connection;
               vm_domain := vm_domain |}
    end.
End Init.

Definition check_power (self : t) (state : string) (timeout : option Q) : H bool :=
  vm_domain <- attribute "vm_domain" (vm_domain self) ;;
  info <- lift (getattr vm_domain "info") ;;
  st <- lift (getitem info (VInt 0)) ;;
  ret (existsb (eqv st)
         [VInt VIR_DOMAIN_RUNNING; VInt VIR_DOMAIN_BLOCKED; VInt VIR_DOMAIN_PAUSED]).

Definition check_status (self : t) (timeout : option Q) : H bool :=
  vm_domain <- attribute "vm_domain" (vm_domain self) ;;
  info <- lift (getattr vm_domain "info") ;;
  i <- call info [] ;;
  st <- lift (getitem i (VInt 0)) ;;
  ret (eqv st (VInt VIR_DOMAIN_RUNNING)).

(** The statement [self.vm_domain.info().<method>()] *)
Definition info_then (self : t) (method : string) : H unit :=
  vm_domain <- attribute "vm_domain" (vm_domain self) ;;
  info <- lift (getattr vm_domain "info") ;;
  i <- call info [] ;;
  m <- lift (getattr i method) ;;
  _ <- call m [] ;;
  ret tt.

Definition power_cycle (self : t) : H unit :=
  info_then self "destroy" ;;;
  info_then self "create".

Definition hard_reset (self : t) : H unit := info_then self "destroy".

Definition power_on (self : t) : H unit := info_then self "create".

Definition power_off (self : t) : H unit := info_then self "destroy".

Definition power_off_for_interval (self : t) (interval : Q) : H unit :=
  s <- attribute "shortname" (shortname self) ;;
  called (CLog "Power off {s} for {i} seconds" [AStr s; ANum interval]) ;;;
  info_then self "destroy" ;;;
  (if lt interval 0 then raise IOError else called (CSleep interval)) ;;;
  info_then self "create" ;;;
  called (CLog "Power off for {i} seconds completed" [AStr s; ANum interval]).

End VirtualConsole.

(** ** Reading a run

    The events of a world without their clock readings, the entry that
    [_check_credentials] leaves in the log, and the sessions that a trace
    activated. *)

Definition events (w : World) : list Event := map snd (trace w).

Definition credentials_warning (self : PhysicalConsole.t) : list Event :=
  if PhysicalConsole.has_ipmi_credentials self then []
  else [Log ERROR
          "Must set ipmi_user, ipmi_password, and ipmi_domain in .teuthology.yaml" []].

(** The world after [_check_credentials] and after [_pexpect_spawn]. *)
Definition warned (self : PhysicalConsole.t) (w : World) : World :=
  if PhysicalConsole.has_ipmi_credentials self then w
  else record
         (Log ERROR
            "Must set ipmi_user, ipmi_password, and ipmi_domain in .teuthology.yaml" [])
         w.

Definition started (self : PhysicalConsole.t) (cmd : string) (w : World) : World :=
  born (PhysicalConsole._build_command self cmd) (warned self w).

(** Events that were all completed at the clock reading [at_]. *)
Definition stamped (at_ : Q) (evs : list Event) : list (Q * Event) :=
  map (pair at_) evs.

Definition is_spawn_of (command : string) (e : Event) : bool :=
  match e with
  | Spawn _ c => String.eqb c command
  | _ => false
  end.

(** How many children a list of events started with [subcommand]. *)
Definition spawned (self : PhysicalConsole.t) (subcommand : string)
           (evs : list Event) : nat :=
  List.length (filter (is_spawn_of (PhysicalConsole._build_command self subcommand)) evs).

Definition login_patterns (self : PhysicalConsole.t) : list Pattern :=
  [Str (PhysicalConsole.shortname self ++ " login: "); TIMEOUT; EOF].

Definition exit_patterns : list Pattern :=
  [Str "terminated ipmitool"; TIMEOUT; EOF].

Definition newline : string := String (Ascii.ascii_of_nat 10) EmptyString.

(** The events of one activated session that was exited: the activation,
    the wait for the login prompt with whatever outcome, the deactivation
    bytes, the wait for the acknowledgment, and the out-of-band deactivation
    when the acknowledgment was not seen in time. *)
Definition exited_session (self : PhysicalConsole.t) (child : nat)
           (t : Q) (login : ExpectOutcome) (t' : Q) (ack : ExpectOutcome)
           (child' : nat) : list Event :=
  credentials_warning self
  ++ [Spawn child (PhysicalConsole._build_command self "sol activate");
      Send child newline;
      Expect child (login_patterns self) t login;
      Send child "~.";
      Expect child exit_patterns t' ack]
  ++ match ack with
     | MatchedPattern _ => []
     | _ => credentials_warning self
            ++ [Spawn child' (PhysicalConsole._build_command self "sol deactivate")]
     end.

(** A list of events made of exited sessions and nothing else. *)
Inductive exited_sessions (self : PhysicalConsole.t) : list Event -> Prop :=
| exited_none : exited_sessions self []
| exited_more : forall child t login t' ack child' rest,
    exited_sessions self rest ->
    exited_sessions self (exited_session self child t login t' ack child' ++ rest).

(** Fuel with which the loop of [check_power] runs to its end under
    [timeout]. *)
Definition check_power_fuel (timeout : Q) : nat := S (Z.to_nat (Qceiling timeout)).

(** The timeouts of the waits in a list of events, oldest first. *)
Fixpoint wait_bounds (evs : list Event) : list Q :=
  match evs with
  | [] => []
  | Expect _ _ t _ :: evs' => t :: wait_bounds evs'
  | _ :: evs' => wait_bounds evs'
  end.

(** [n] bounds that start at [t] and double each time. *)
Fixpoint doubling (t : Q) (n : nat) : list Q :=
  match n with
  | O => []
  | S n' => t :: doubling (t * 2) n'
  end.

(** A list of events made of exited sessions none of which saw the login
    prompt, each having waited for it under a timeout between 0 and
    [bound]. *)
Inductive unanswered_sessions (self : PhysicalConsole.t) (bound : Q)
  : list Event -> Prop :=
| unanswered_none : unanswered_sessions self bound []
| unanswered_more : forall child t login t' ack child' rest,
    login = Timeout \/ login = EndOfStream ->
    0 < t /\ t <= bound ->
    unanswered_sessions self bound rest ->
    unanswered_sessions self bound
      (exited_session self child t login t' ack child' ++ rest).

(** The events of a run of the login wait that was answered: sessions
    without a login prompt, then one that saw it, which is the last. *)
Definition answered_at_last (self : PhysicalConsole.t) (bound : Q)
           (evs : list Event) : Prop :=
  exists before child t t' ack child',
    evs = (before ++ exited_session self child t (MatchedPattern 0) t' ack child')%list
    /\ 0 < t /\ t <= bound
    /\ unanswered_sessions self bound before.

(** A reply that does not come sooner than [eps]. *)
Definition slow (eps : Q) (r : Reply) : Prop :=
  match r with
  | Marker d => eps <= seconds d
  | Closed d => eps <= seconds d
  | Silent => True
  end.

(** Fuel with which a loop that runs while less than [t] has passed comes to
    its end, when every pass through it takes [eps] or more. *)
Definition window_fuel (t eps : Q) : nat := S (S (Z.to_nat (Qceiling (t / eps)))).

(** ** Consoles and worlds to run the methods on *)

Definition no_config : Config :=
  {| ipmi_user := None; ipmi_password := None; ipmi_domain := None |}.

Definition cephN : PhysicalConsole.t :=
  PhysicalConsole.__init__ (fun _ => "cephN") no_config "cephN.front.sepia"
    (Some "u") (Some "p") (Some "example.com") None
    PhysicalConsole.default_timeout.

(** The world at clock 0 in which the n-th wait gets the reply [r n]. *)
Definition fresh (r : nat -> Reply) : World :=
  {| clock := 0; replies := r; waits := 0; children := 0; trace := [] |}.

Definition always (r : Reply) : nat -> Reply := fun _ => r.


(** [bool(x)] for a value that is a string or [None] *)
Definition given (x : option string) : bool :=
  match x with
  | Some s => negb (String.eqb s EmptyString)
  | None => false
  end.

(** ** Reading a run of check_power *)

Definition status_patterns (state : string) : list Pattern :=
  [Str ("Chassis Power is " ++ state); EOF; TIMEOUT].

(** The events of one pass through the loop of [check_power] up to the
    test of [r]: a power status session and its wait. *)
Definition poll (self : PhysicalConsole.t) (state : string) (child : nat)
           (t : Q) (o : ExpectOutcome) : list Event :=
  (credentials_warning self
   ++ [Spawn child (PhysicalConsole._build_command self "power status");
       Expect child (status_patterns state) t o])%list.

(** A list of events made of polls that did not see the state, each
    followed by at most one sleep, of positive length and only after the
    stream had closed. *)
Inductive failed_polls (self : PhysicalConsole.t) (state : string)
  : list Event -> Prop :=
| failed_none : failed_polls self state []
| failed_more : forall child t o pause rest,
    o = Timeout \/ o = EndOfStream ->
    pause = [] \/ (exists s, 0 < s /\ o = EndOfStream /\ pause = [Sleep s]) ->
    failed_polls self state rest ->
    failed_polls self state (poll self state child t o ++ pause ++ rest)%list.

(** [t] after [n] doublings. *)
Fixpoint doubled (t : Q) (n : nat) : Q :=
  match n with
  | O => t
  | S n' => doubled (t * 2) n'
  end.

(** ** Reading a run of a transition *)

(** The events of one pass through the command loop of [hard_reset],
    [power_on] and [power_off]: the command is spawned and its
    acknowledgment or the end of the stream awaited. *)
Definition command_attempt (self : PhysicalConsole.t) (cmd marker : string)
           (child : nat) (o : ExpectOutcome) : list Event :=
  (credentials_warning self
   ++ [Spawn child (PhysicalConsole._build_command self cmd);
       Expect child [Str marker; EOF] (PhysicalConsole.timeout self) o])%list.

(** A list of events made of passes whose stream closed before the
    acknowledgment. *)
Inductive closed_attempts (self : PhysicalConsole.t) (cmd marker : string)
  : list Event -> Prop :=
| closed_none : closed_attempts self cmd marker []
| closed_more : forall child rest,
    closed_attempts self cmd marker rest ->
    closed_attempts self cmd marker
      (command_attempt self cmd marker child EndOfStream ++ rest)%list.

(** A call that, from every world and however it ends, moves the clock
    forward by [bound] at most. *)
Definition within {A : Type} (bound : Q) (m : M A) : Prop :=
  forall w, clock w <= clock (snd (m w)) /\ clock (snd (m w)) - clock w <= bound.

(** ** Reading the construction of a virtual console *)

(** A string without a dot. *)
Fixpoint dotless (s : string) : bool :=
  match s with
  | EmptyString => true
  | String c s' => negb (Ascii.eqb c (Ascii.ascii_of_nat 46)) && dotless s'
  end.

(** The ids that [listDomainsID] gives for the domains [ds] of a host. *)
Definition listed (ds : list Domain) : list Z :=
  map dom_id (filter (fun d => negb (Z.eqb (dom_state d) VIR_DOMAIN_SHUTOFF)) ds).

(** Whether [lookupByID] gives for [id] a domain of the name [shortname]. *)
Definition named (ds : list Domain) (shortname : string) (id : Z) : bool :=
  match find_domain id ds with
  | Some d => String.eqb (dom_name d) shortname
  | None => false
  end.

(** The console that [__init__] leaves when it returns from its handler. *)
Definition inert (shortname : string) : VirtualConsole.t :=
  {| VirtualConsole.shortname := Some shortname;
     VirtualConsole.connection := None;
     VirtualConsole.vm_domain := None |}.

(** ** Reading which child a call addresses *)

(** Whether the children of a list of events are numbered one after the
    other from [next] on, and every [send] and every wait goes to the child
    that was started last. *)
Fixpoint sequential (next : nat) (evs : list Event) : bool :=
  match evs with
  | [] => true
  | Spawn child _ :: evs' => Nat.eqb child next && sequential (S next) evs'
  | Send child _ :: evs' => Nat.eqb (S child) next && sequential next evs'
  | Expect child _ _ _ :: evs' => Nat.eqb (S child) next && sequential next evs'
  | _ :: evs' => sequential next evs'
  end.

(** How many children a list of events started. *)
Fixpoint spawns (evs : list Event) : nat :=
  match evs with
  | [] => O
  | Spawn _ _ :: evs' => S (spawns evs')
  | _ :: evs' => spawns evs'
  end.

(** A call that, run in the world [w] and however it ends, starts its
    children one after the other and addresses the last one only. *)
Definition orderly {A : Type} (m : M A) (w : World) : Prop :=
  exists evs,
    events (snd (m w)) = (events w ++ evs)%list
    /\ sequential (children w) evs = true
    /\ children (snd (m w)) = (children w + spawns evs)%nat.

(** * Properties *)

(** ** Arithmetic of the clock *)

Lemma lt_true (x y : Q) : lt x y = true <-> x < y.
Proof.
  unfold lt. rewrite negb_true_iff. split; intros H.
  - apply Qnot_le_lt. intros L. apply Qle_bool_iff in L. congruence.
  - destruct (Qle_bool y x) eqn:E; [|reflexivity].
    apply Qle_bool_iff in E. exfalso. apply (Qlt_not_le _ _ H E).
Qed.

Lemma lt_false (x y : Q) : lt x y = false <-> y <= x.
Proof.
  unfold lt. rewrite negb_false_iff. apply Qle_bool_iff.
Qed.

Lemma seconds_nonneg (d : Delay) : 0 <= seconds d.
Proof.
  unfold seconds, Qle. simpl. lia.
Qed.

Lemma whole_nonneg (t : Q) : 0 <= whole t.
Proof.
  unfold whole. destruct (Qle_bool 0 t) eqn:E.
  - now apply Qle_bool_iff.
  - apply Qle_refl.
Qed.

Lemma whole_le (t : Q) : 0 <= t -> whole t <= t.
Proof.
  intros H. unfold whole. apply Qle_bool_iff in H. rewrite H. apply Qle_refl.
Qed.

Lemma whole_of_nonneg (t : Q) : 0 <= t -> whole t = t.
Proof.
  intros H. unfold whole. apply Qle_bool_iff in H. now rewrite H.
Qed.

(** ** The command line *)

(** C7: for every subcommand and every console whose credentials are set,
    the command built for ipmitool is the documented template with the
    console's short name, domain, user and password filled in; with
    short name cephN, domain example.com, user u and password p the
    subcommand power status gives the documented line. *)
Theorem build_command_template :
  (forall name shortname timeout logfile user password domain flag subcommand,
      PhysicalConsole._build_command
        {| PhysicalConsole.name := name;
           PhysicalConsole.shortname := shortname;
           PhysicalConsole.timeout := timeout;
           PhysicalConsole.logfile := logfile;
           PhysicalConsole.ipmiuser := Some user;
           PhysicalConsole.ipmipass := Some password;
           PhysicalConsole.ipmidomain := Some domain;
           PhysicalConsole.has_ipmi_credentials := flag |}
        subcommand
      = "ipmitool -H " ++ shortname ++ "." ++ domain ++ " -I lanplus -U " ++ user
          ++ " -P " ++ password ++ " " ++ subcommand)
  /\ (forall config name logfile timeout,
         PhysicalConsole._build_command
           (PhysicalConsole.__init__ (fun _ => "cephN") config name
              (Some "u") (Some "p") (Some "example.com") logfile timeout)
           "power status"
         = "ipmitool -H cephN.example.com -I lanplus -U u -P p power status").
Proof.
  split.
  - intros. reflexivity.
  - intros. reflexivity.
Qed.

(** ** The credentials flag *)

Lemma or_str_None_r (a : option string) :
  is_not_None (or_str a None) = given a.
Proof.
  destruct a as [s|]; simpl; [|reflexivity].
  destruct (String.eqb s EmptyString); reflexivity.
Qed.

(** C8: the constructor sets the flag from the three resolved credentials,
    true exactly when none of them is None; with nothing to fall back on in
    the configuration that is exactly when the three arguments are given;
    and [_check_credentials], the only reader, consults the stored flag
    and leaves the console as it is. *)
Theorem has_ipmi_credentials_at_construction :
  forall getShortName config name user password domain logfile timeout,
    let self :=
      PhysicalConsole.__init__ getShortName config name user password domain
        logfile timeout in
    (PhysicalConsole.has_ipmi_credentials self = true <->
       PhysicalConsole.ipmiuser self <> None
       /\ PhysicalConsole.ipmipass self <> None
       /\ PhysicalConsole.ipmidomain self <> None)
    /\ PhysicalConsole.has_ipmi_credentials
         (PhysicalConsole.__init__ getShortName no_config name user password
            domain logfile timeout)
       = given user && given password && given domain
    /\ (forall w,
           PhysicalConsole._check_credentials self w
           = (Ret tt,
              if PhysicalConsole.has_ipmi_credentials self then w
              else record
                     (Log ERROR
                        "Must set ipmi_user, ipmi_password, and ipmi_domain in .teuthology.yaml"
                        []) w)).
Proof.
  intros. split; [|split].
  - subst self. unfold PhysicalConsole.__init__. simpl.
    destruct (or_str user (ipmi_user config));
      destruct (or_str password (ipmi_password config));
      destruct (or_str domain (ipmi_domain config)); simpl;
      (split; [intros H; try discriminate H; repeat split; discriminate
              | intros (A & B & C); try reflexivity; congruence]).
  - unfold PhysicalConsole.__init__, no_config. simpl.
    rewrite !or_str_None_r. rewrite andb_true_r. now rewrite andb_assoc.
  - intros w. unfold PhysicalConsole._check_credentials.
    destruct (PhysicalConsole.has_ipmi_credentials self); reflexivity.
Qed.

(** ** The virtual console *)

(** C5: with libvirt imported and a status record whose is_vm is False
    or missing, [__init__] reads the local phys_host that only the is_vm branch binds
    and raises UnboundLocalError, so no console is constructed.  The path
    that does leave a console without a domain is a status record whose
    vm_host is None (the TypeError that is caught), and [check_power] on
    such a console raises AttributeError; on a console with a domain it
    subscripts the bound method [info] and raises TypeError. *)
Theorem virtual_console_without_domain :
  (forall getShortName name rest h,
      VirtualConsole.__init__ true getShortName
        (fun _ => VDict (("is_vm", VBool false) :: rest)) name h
      = (Raise (UnboundLocalError "phys_host"), h))
  /\ (forall getShortName name h,
         VirtualConsole.__init__ true getShortName (fun _ => VDict []) name h
         = (Raise (UnboundLocalError "phys_host"), h))
  /\ (forall getShortName name h,
         VirtualConsole.__init__ true getShortName
           (fun _ => VDict [("is_vm", VBool true); ("vm_host", VNone)]) name h
         = (Ret {| VirtualConsole.shortname := Some (getShortName name);
                   VirtualConsole.connection := None;
                   VirtualConsole.vm_domain := None |}, h))
  /\ (forall shortname connection state timeout h,
         VirtualConsole.check_power
           {| VirtualConsole.shortname := shortname;
              VirtualConsole.connection := connection;
              VirtualConsole.vm_domain := None |} state timeout h
         = (Raise (AttributeError "vm_domain"), h))
  /\ (forall shortname connection host id state timeout h,
         VirtualConsole.check_power
           {| VirtualConsole.shortname := shortname;
              VirtualConsole.connection := connection;
              VirtualConsole.vm_domain := Some (VDomain host id) |} state timeout h
         = (Raise TypeError, h)).
Proof.
  repeat split; intros; reflexivity.
Qed.

(** What [self.vm_domain.info().<method>()] makes of a bound domain: the
    call of [info] is the only one that reaches libvirt. *)
Lemma info_then_bound shortname connection host id method h :
  VirtualConsole.info_then
    {| VirtualConsole.shortname := shortname;
       VirtualConsole.connection := connection;
       VirtualConsole.vm_domain := Some (VDomain host id) |} method h
  = (Raise (match domain_of host id h with
            | Some _ => AttributeError method
            | None => LibvirtError
            end),
     {| hosts := hosts h; calls := calls h ++ [CInfo host id] |}).
Proof.
  unfold VirtualConsole.info_then, VirtualConsole.attribute, bind, lift, ret.
  simpl. unfold bind, called, domain_of. simpl.
  destruct (assoc host (hosts h)) as [ds|]; [|reflexivity].
  destruct (find_domain id ds); reflexivity.
Qed.

(** C6: on a console with a bound domain each of [power_cycle],
    [hard_reset], [power_on] and [power_off] calls [info()] on the domain
    and then looks up destroy or create on the list that [info()] returned:
    the method raises AttributeError (or the libvirt error of [info()]), and
    neither [destroy()] nor [create()] of the domain is ever called. *)
Theorem virtual_power_methods_call_info_only :
  forall shortname connection host id h,
    let self := {| VirtualConsole.shortname := shortname;
                   VirtualConsole.connection := connection;
                   VirtualConsole.vm_domain := Some (VDomain host id) |} in
    let h' := {| hosts := hosts h; calls := calls h ++ [CInfo host id] |} in
    let raised attr := match domain_of host id h with
                       | Some _ => AttributeError attr
                       | None => LibvirtError
                       end in
    VirtualConsole.power_cycle self h = (Raise (raised "destroy"), h')
    /\ VirtualConsole.hard_reset self h = (Raise (raised "destroy"), h')
    /\ VirtualConsole.power_on self h = (Raise (raised "create"), h')
    /\ VirtualConsole.power_off self h = (Raise (raised "destroy"), h').
Proof.
  intros. subst self h' raised. cbv beta.
  unfold VirtualConsole.power_cycle, VirtualConsole.hard_reset,
    VirtualConsole.power_on, VirtualConsole.power_off.
  unfold bind at 1.
  rewrite !info_then_bound.
  repeat split.
Qed.

(** ** check_power: the backoff loop *)

(** C10: when the timeout that [check_power] works with, which is its
    argument unless that is None or zero and the console's timeout
    otherwise, is at most 1, the loop test fails at once: the result is
    False and the world is untouched, no session is spawned. *)
Theorem check_power_short_timeout :
  forall fuel self state timeout w,
    or_num timeout (PhysicalConsole.timeout self) <= 1 ->
    PhysicalConsole.check_power (S fuel) self state timeout w = (Ret false, w).
Proof.
  intros fuel self state timeout w H.
  unfold PhysicalConsole.check_power, bind, time. simpl.
  apply lt_false in H. rewrite H. reflexivity.
Qed.

Lemma check_power_short_timeout_witness :
  or_num (Some 1) (PhysicalConsole.timeout cephN) <= 1
  /\ PhysicalConsole.check_power 1 cephN "on" (Some 1) (fresh (always Silent))
     = (Ret false, fresh (always Silent)).
Proof.
  split.
  - vm_compute. discriminate.
  - apply (check_power_short_timeout 0 cephN "on" (Some 1) (fresh (always Silent))).
    vm_compute. discriminate.
Defined.

(** A timeout argument of 0 is at most 1, yet [check_power] falls back on
    the console's 20 seconds and spawns four sessions. *)
Lemma check_power_zero_timeout_spawns :
  0 <= 1
  /\ fst (PhysicalConsole.check_power 5 cephN "on" (Some 0) (fresh (always Silent)))
     = Ret false
  /\ children
       (snd (PhysicalConsole.check_power 5 cephN "on" (Some 0) (fresh (always Silent))))
     = 4%nat.
Proof.
  split; [discriminate|]. split; vm_compute; reflexivity.
Qed.

(** C3: with a stream that closes at once on every wait and the console's
    timeout of 20, the wait bounds are 1, 2, 4 and 8 and the result is
    False, but the second session, whose wait closed at once under a bound
    of 2, is followed by a sleep of 1: the loop measures the time already
    spent from the clock reading taken before the previous sleep. *)
Theorem check_power_sleeps_less_than_the_bound :
  let status := "ipmitool -H cephN.example.com -I lanplus -U u -P p power status" in
  let patterns := [Str "Chassis Power is on"; EOF; TIMEOUT] in
  PhysicalConsole.check_power 5 cephN "on" None (fresh (always (Closed instantly)))
  = (Ret false,
     {| clock := 10; replies := always (Closed instantly); waits := 4; children := 4;
        trace :=
          [(0, Spawn 0 status); (0, Expect 0 patterns 1 EndOfStream); (1, Sleep 1);
           (1, Spawn 1 status); (1, Expect 1 patterns 2 EndOfStream); (2, Sleep 1);
           (2, Spawn 2 status); (2, Expect 2 patterns 4 EndOfStream); (5, Sleep 3);
           (5, Spawn 3 status); (5, Expect 3 patterns 8 EndOfStream); (10, Sleep 5)] |}).
Proof.
  vm_compute. reflexivity.
Qed.

(** ** The login wait and the transitions: runs that end in an exception *)

(** A power cycle that is acknowledged at once on a machine that never
    shows a login prompt raises ConsoleError. *)
Lemma power_cycle_raises_ConsoleError :
  fst (PhysicalConsole.power_cycle 2 cephN
         (fresh (fun n => match n with O => Marker instantly | _ => Silent end)))
  = Raise (ConsoleError "Did not get a login prompt from cephN.front.sepia!").
Proof.
  vm_compute. reflexivity.
Qed.


(** ** Steps of a run *)

Open Scope list_scope.

Lemma bind_run {W A B : Type} {m : St W A} (k : A -> St W B) {w w' : W} {a : A} :
  m w = (Ret a, w') -> bind m k w = k a w'.
Proof.
  intros H. unfold bind. now rewrite H.
Qed.

Lemma bind_raise {W A B : Type} {m : St W A} (k : A -> St W B) {w w' : W} {e : Exc} :
  m w = (Raise e, w') -> bind m k w = (Raise e, w').
Proof.
  intros H. unfold bind. now rewrite H.
Qed.

Lemma warned_fields self w :
  clock (warned self w) = clock w
  /\ replies (warned self w) = replies w
  /\ waits (warned self w) = waits w
  /\ children (warned self w) = children w
  /\ trace (warned self w) = trace w ++ stamped (clock w) (credentials_warning self).
Proof.
  unfold warned, credentials_warning.
  destruct (PhysicalConsole.has_ipmi_credentials self); simpl;
    rewrite ?app_nil_r; repeat split; reflexivity.
Qed.

Lemma started_fields self cmd w :
  clock (started self cmd w) = clock w
  /\ replies (started self cmd w) = replies w
  /\ waits (started self cmd w) = waits w
  /\ children (started self cmd w) = S (children w)
  /\ trace (started self cmd w)
     = trace w
       ++ stamped (clock w)
            (credentials_warning self
             ++ [Spawn (children w) (PhysicalConsole._build_command self cmd)]).
Proof.
  destruct (warned_fields self w) as (C & R & W & N & T).
  unfold started, born, record. simpl. rewrite C, R, W, N, T.
  repeat split. unfold stamped. rewrite map_app, <- app_assoc. reflexivity.
Qed.

Lemma clock_started self cmd w : clock (started self cmd w) = clock w.
Proof. apply started_fields. Qed.

Lemma replies_started self cmd w : replies (started self cmd w) = replies w.
Proof. apply started_fields. Qed.

Lemma waits_started self cmd w : waits (started self cmd w) = waits w.
Proof. apply started_fields. Qed.

Lemma children_started self cmd w : children (started self cmd w) = S (children w).
Proof. apply started_fields. Qed.

Lemma trace_started self cmd w :
  trace (started self cmd w)
  = trace w
    ++ stamped (clock w)
         (credentials_warning self
          ++ [Spawn (children w) (PhysicalConsole._build_command self cmd)]).
Proof. apply started_fields. Qed.

Create Rewrite HintDb world.

Lemma clock_record e w : clock (record e w) = clock w.
Proof. reflexivity. Qed.

Lemma replies_record e w : replies (record e w) = replies w.
Proof. reflexivity. Qed.

Lemma waits_record e w : waits (record e w) = waits w.
Proof. reflexivity. Qed.

Lemma children_record e w : children (record e w) = children w.
Proof. reflexivity. Qed.

Lemma clock_heard child patterns t o d w :
  clock (heard child patterns t o d w) = clock w + d.
Proof. reflexivity. Qed.

Lemma replies_heard child patterns t o d w :
  replies (heard child patterns t o d w) = replies w.
Proof. reflexivity. Qed.

Lemma waits_heard child patterns t o d w :
  waits (heard child patterns t o d w) = S (waits w).
Proof. reflexivity. Qed.

Lemma children_heard child patterns t o d w :
  children (heard child patterns t o d w) = children w.
Proof. reflexivity. Qed.

Lemma clock_slept secs w : clock (slept secs w) = clock w + secs.
Proof. reflexivity. Qed.

Lemma replies_slept secs w : replies (slept secs w) = replies w.
Proof. reflexivity. Qed.

Lemma waits_slept secs w : waits (slept secs w) = waits w.
Proof. reflexivity. Qed.

Lemma children_slept secs w : children (slept secs w) = children w.
Proof. reflexivity. Qed.

#[local] Hint Rewrite clock_started replies_started waits_started children_started
  clock_record replies_record waits_record children_record
  clock_heard replies_heard waits_heard children_heard
  clock_slept replies_slept waits_slept children_slept : world.

Lemma check_credentials_run self w :
  PhysicalConsole._check_credentials self w = (Ret tt, warned self w).
Proof.
  unfold PhysicalConsole._check_credentials, warned.
  destruct (PhysicalConsole.has_ipmi_credentials self); reflexivity.
Qed.

Lemma pexpect_spawn_run self cmd w :
  PhysicalConsole._pexpect_spawn self cmd w = (Ret (children w), started self cmd w).
Proof.
  unfold PhysicalConsole._pexpect_spawn.
  rewrite (bind_run _ (check_credentials_run self w)).
  unfold bind, spawn, ret, started.
  now destruct (warned_fields self w) as (_ & _ & _ & -> & _).
Qed.

(** *** Waits *)

Lemma patience_same (t : Q) : ~ t == -1 -> patience t = t.
Proof.
  intros H. unfold patience. destruct (Qeq_bool t (-1)) eqn:E; [|reflexivity].
  apply Qeq_bool_iff in E. contradiction.
Qed.

Lemma patience_of_nonneg (t : Q) : 0 <= t -> patience t = t.
Proof.
  intros H. apply patience_same. intros E. lra.
Qed.

Lemma await_cases patterns r t :
  (exists i d, r = Marker d /\ position is_Str patterns = Some i
               /\ seconds d <= patience t
               /\ await patterns r t = (MatchedPattern i, seconds d))
  \/ (exists d, r = Closed d /\ seconds d <= patience t
                /\ await patterns r t = (EndOfStream, seconds d))
  \/ await patterns r t = (Timeout, whole (patience t)).
Proof.
  unfold await. destruct r as [d|d|].
  - destruct (position is_Str patterns) as [i|]; [|auto].
    destruct (Qle_bool (seconds d) (patience t)) eqn:E; [|auto].
    left. exists i, d. apply Qle_bool_iff in E. auto.
  - destruct (Qle_bool (seconds d) (patience t)) eqn:E; [|auto].
    right. left. exists d. apply Qle_bool_iff in E. auto.
  - auto.
Qed.


Lemma await_nonneg patterns r t : 0 <= snd (await patterns r t).
Proof.
  destruct (await_cases patterns r t)
    as [(i & d & _ & _ & _ & ->)|[(d & _ & _ & ->)| ->]]; simpl;
    auto using seconds_nonneg, whole_nonneg.
Qed.

Lemma await_within patterns r t : 0 <= t -> snd (await patterns r t) <= t.
Proof.
  intros H.
  destruct (await_cases patterns r t)
    as [(i & d & _ & _ & L & ->)|[(d & _ & L & ->)| ->]];
    rewrite (patience_of_nonneg _ H) in *; simpl; auto using whole_le.
Qed.

(** A wait whose pattern list names the marker first and then TIMEOUT and
    EOF, in either order, returns whatever the outcome, and returns 0
    exactly when the marker was seen. *)
Lemma expect_never_raises child marker p q t w :
  (p = TIMEOUT /\ q = EOF) \/ (p = EOF /\ q = TIMEOUT) ->
  let patterns := [Str marker; p; q] in
  let o := fst (await patterns (replies w (waits w)) t) in
  let d := snd (await patterns (replies w (waits w)) t) in
  exists r,
    expect child patterns t w = (Ret r, heard child patterns t o d w)
    /\ (r = 0%nat <-> o = MatchedPattern 0)
    /\ (o = Timeout -> position is_TIMEOUT patterns = Some r)
    /\ (o = EndOfStream -> position is_EOF patterns = Some r)
    /\ (forall i, o = MatchedPattern i -> i = 0%nat).
Proof.
  intros Hpq patterns o d. subst o d. unfold expect.
  destruct (await_cases patterns (replies w (waits w)) t)
    as [(i & dl & _ & P & _ & ->)|[(dl & _ & _ & ->)| ->]]; simpl.
  - inversion P; subst i. exists 0%nat.
    repeat split; intros; try discriminate; try congruence.
  - destruct Hpq as [[-> ->]|[-> ->]]; simpl; eexists; (split; [reflexivity|]);
      repeat split; intros; try discriminate; try congruence.
  - destruct Hpq as [[-> ->]|[-> ->]]; simpl; eexists; (split; [reflexivity|]);
      repeat split; intros; try discriminate; try congruence.
Qed.

(** *** The events of a step *)

Lemma events_record (e : Event) (w : World) : events (record e w) = events w ++ [e].
Proof.
  unfold events, record. simpl. now rewrite map_app.
Qed.

Lemma events_started self cmd w :
  events (started self cmd w)
  = events w ++ credentials_warning self
      ++ [Spawn (children w) (PhysicalConsole._build_command self cmd)].
Proof.
  unfold events. rewrite trace_started, map_app. f_equal.
  unfold stamped. rewrite map_map. simpl. apply map_id.
Qed.

Lemma events_heard child patterns t o d w :
  events (heard child patterns t o d w) = events w ++ [Expect child patterns t o].
Proof.
  unfold heard. now rewrite events_record.
Qed.

Lemma events_slept secs w : events (slept secs w) = events w ++ [Sleep secs].
Proof.
  unfold slept. now rewrite events_record.
Qed.

(** *** Sessions of the login wait *)

Lemma send_run child s w : send child s w = (Ret tt, record (Send child s) w).
Proof. reflexivity. Qed.

Lemma time_run w : time w = (Ret (clock w), w).
Proof. reflexivity. Qed.

Lemma log_run level template args w :
  log level template args w = (Ret tt, record (Log level template args) w).
Proof. reflexivity. Qed.

Lemma exit_session_run self child timeout w :
  let t' := or_num timeout (PhysicalConsole.timeout self) in
  let ack := fst (await exit_patterns (replies w (waits w)) t') in
  exists w',
    PhysicalConsole._exit_session self child timeout w = (Ret tt, w')
    /\ events w'
       = events w ++ [Send child "~."; Expect child exit_patterns t' ack]
           ++ match ack with
              | MatchedPattern _ => []
              | _ => credentials_warning self
                     ++ [Spawn (children w)
                           (PhysicalConsole._build_command self "sol deactivate")]
              end
    /\ replies w' = replies w
    /\ waits w' = S (waits w)
    /\ clock w' = clock w + snd (await exit_patterns (replies w (waits w)) t').
Proof.
  intros t' ack. unfold PhysicalConsole._exit_session.
  rewrite (bind_run _ (send_run child "~." w)). fold t'.
  destruct (expect_never_raises child "terminated ipmitool" TIMEOUT EOF t'
              (record (Send child "~.") w)) as (r & E & R0 & RT & RE & RM); [auto|].
  fold exit_patterns in E, R0, RT, RE, RM.
  autorewrite with world in E, R0, RT, RE, RM. fold ack in E, R0, RT, RE, RM.
  rewrite (bind_run _ E).
  destruct ack as [i| |] eqn:Ea.
  - rewrite (RM i eq_refl) in R0. assert (r = 0%nat) as -> by now apply R0.
    simpl. unfold ret. eexists. split; [reflexivity|].
    rewrite events_heard, events_record, <- app_assoc. auto.
  - specialize (RT eq_refl). inversion RT; subst r. simpl.
    rewrite (bind_run _ (pexpect_spawn_run _ _ _)). unfold ret.
    eexists. split; [reflexivity|].
    rewrite events_started, events_heard, events_record, <- !app_assoc.
    autorewrite with world. auto.
  - specialize (RE eq_refl). inversion RE; subst r. simpl.
    rewrite (bind_run _ (pexpect_spawn_run _ _ _)). unfold ret.
    eexists. split; [reflexivity|].
    rewrite events_started, events_heard, events_record, <- !app_assoc.
    autorewrite with world. auto.
Qed.

Lemma login_session_run self t start w :
  let t0 := t - (clock w - start) in
  let login := fst (await (login_patterns self) (replies w (waits w)) t0) in
  let d := snd (await (login_patterns self) (replies w (waits w)) t0) in
  let t' := PhysicalConsole.timeout self in
  let ack := fst (await exit_patterns (replies w (S (waits w))) t') in
  exists r w',
    PhysicalConsole.login_session self t start w = (Ret r, w')
    /\ (r = 0%nat <-> login = MatchedPattern 0)
    /\ events w'
       = events w
         ++ exited_session self (children w) t0 login t' ack (S (children w))
    /\ replies w' = replies w
    /\ waits w' = S (S (waits w))
    /\ clock w'
       = clock w + d + snd (await exit_patterns (replies w (S (waits w))) t').
Proof.
  intros t0 login d t' ack. unfold PhysicalConsole.login_session.
  rewrite (bind_run _ (pexpect_spawn_run _ _ _)).
  rewrite (bind_run _ (send_run _ _ _)).
  rewrite (bind_run _ (time_run _)).
  autorewrite with world. fold t0.
  set (w2 := record (Send (children w) _) (started self "sol activate" w)).
  assert (R2 : replies w2 = replies w) by (subst w2; now autorewrite with world).
  assert (W2 : waits w2 = waits w) by (subst w2; now autorewrite with world).
  assert (N2 : children w2 = S (children w)) by (subst w2; now autorewrite with world).
  assert (C2 : clock w2 = clock w) by (subst w2; now autorewrite with world).
  destruct (expect_never_raises (children w)
              (PhysicalConsole.shortname self ++ " login: ")%string TIMEOUT EOF t0 w2)
    as (r & E & R0 & _); [auto|].
  fold (login_patterns self) in E, R0. rewrite R2, W2 in E, R0.
  fold login in E, R0. fold d in E.
  rewrite (bind_run _ E).
  destruct (exit_session_run self (children w) None
              (heard (children w) (login_patterns self) t0 login d w2))
    as (w' & E' & T' & R' & W' & C').
  rewrite (bind_run _ E'). unfold ret.
  exists r, w'. split; [reflexivity|]. split; [exact R0|].
  autorewrite with world in T', R', W', C'. rewrite R2, W2, N2 in *. rewrite C2 in C'.
  fold t' in T', C'. fold ack in T'.
  repeat split; auto.
  rewrite T', events_heard. subst w2. rewrite events_record, events_started.
  unfold exited_session, newline. rewrite <- !app_assoc. reflexivity.
Qed.

Lemma exited_sessions_app self evs evs' :
  exited_sessions self evs -> exited_sessions self evs' ->
  exited_sessions self (evs ++ evs').
Proof.
  induction 1 as [|child t login t' ack child' rest _ IH]; intros H'.
  - exact H'.
  - rewrite <- app_assoc. constructor. now apply IH.
Qed.

Lemma exited_sessions_one self child t login t' ack child' :
  exited_sessions self (exited_session self child t login t' ack child').
Proof.
  rewrite <- (app_nil_r (exited_session _ _ _ _ _ _ _)). repeat constructor.
Qed.

Lemma wait_for_login_while_exits fuel self t start w :
  exists evs,
    events (snd (PhysicalConsole._wait_for_login_while fuel self t start w))
    = events w ++ evs
    /\ exited_sessions self evs.
Proof.
  revert w. induction fuel as [|fuel IH]; intros w.
  - exists []. simpl. rewrite app_nil_r. split; [reflexivity|constructor].
  - simpl. rewrite (bind_run _ (time_run _)).
    destruct (lt (clock w - start) t).
    + destruct (login_session_run self t start w) as (r & w' & E & _ & T & _).
      rewrite (bind_run _ E).
      destruct (Nat.eqb r 0).
      * eexists. split; [exact T|]. apply exited_sessions_one.
      * destruct (IH w') as (evs & Tw & Hx).
        eexists. rewrite Tw, T, <- app_assoc. split; [reflexivity|].
        constructor. exact Hx.
    + exists []. simpl. rewrite app_nil_r. split; [reflexivity|constructor].
Qed.

(** C2: whatever the replies, the fuel, the timeout and the number of
    attempts, and however the call ends, the events that [_wait_for_login]
    adds are a sequence of exited sessions: every wait for the login prompt,
    with whichever of the three outcomes, is followed by the bytes ~. and a
    wait for terminated ipmitool, and by a spawn of sol deactivate when that
    wait did not see the acknowledgment. *)
Theorem wait_for_login_always_exits_session :
  forall fuel self timeout attempts w,
  exists evs,
    events (snd (PhysicalConsole._wait_for_login fuel self timeout attempts w))
    = events w ++ evs
    /\ exited_sessions self evs.
Proof.
  intros fuel self timeout attempts. unfold PhysicalConsole._wait_for_login.
  generalize (or_num timeout (PhysicalConsole.timeout self)) as t. intros t.
  induction attempts as [|n IH]; intros w.
  - exists []. simpl. rewrite app_nil_r. split; [reflexivity|constructor].
  - simpl. rewrite (bind_run _ (time_run _)). unfold bind at 1.
    destruct (wait_for_login_while_exits fuel self t (clock w) w) as (evs & T & Hx).
    destruct (PhysicalConsole._wait_for_login_while fuel self t (clock w) w)
      as [[[|]|e|] w'] eqn:E; simpl in T.
    + exists evs. auto.
    + destruct (IH w') as (evs' & T' & Hx').
      exists (evs ++ evs'). rewrite T', T, <- app_assoc.
      split; [reflexivity|]. now apply exited_sessions_app.
    + exists evs. auto.
    + exists evs. auto.
Qed.

(** ** power_off_for_interval *)

Lemma expect_marker_run child patterns t w d i :
  replies w (waits w) = Marker d ->
  seconds d <= patience t ->
  position is_Str patterns = Some i ->
  expect child patterns t w
  = (Ret i, heard child patterns t (MatchedPattern i) (seconds d) w).
Proof.
  intros R L P. unfold expect, await. rewrite R, P.
  apply Qle_bool_iff in L. rewrite L. reflexivity.
Qed.

Lemma sleep_run secs w : 0 <= secs -> sleep secs w = (Ret tt, slept secs w).
Proof.
  intros H. unfold sleep. apply lt_false in H. now rewrite H.
Qed.

Lemma trace_record e w : trace (record e w) = trace w ++ [(clock w, e)].
Proof. reflexivity. Qed.

Lemma trace_heard child patterns t o d w :
  trace (heard child patterns t o d w)
  = trace w ++ [(clock w + d, Expect child patterns t o)].
Proof. reflexivity. Qed.

Lemma trace_slept secs w :
  trace (slept secs w) = trace w ++ [(clock w + secs, Sleep secs)].
Proof. reflexivity. Qed.

(** C9: when the Down/Off and the Up/On acknowledgment each arrive within
    the timeout of their wait, which is the console's timeout (the child's
    own 30 seconds when that is -1), and the interval is a length that
    [time.sleep] takes, [power_off_for_interval] spawns power off and waits
    for Down/Off, sleeps the interval, spawns power on and waits for Up/On,
    in that order, and then runs the login wait.  The sleep is not guarded
    by any test, and power on is spawned at the clock reading of the
    Down/Off acknowledgment plus exactly the interval; when the
    acknowledgment is instant that reading is the start of the call. *)
Theorem power_off_for_interval_sequence :
  forall fuel self interval w d_off d_on,
    0 <= interval ->
    interval <= longest_sleep ->
    replies w (waits w) = Marker d_off ->
    seconds d_off <= patience (PhysicalConsole.timeout self) ->
    replies w (S (waits w)) = Marker d_on ->
    seconds d_on <= patience (PhysicalConsole.timeout self) ->
    let s := PhysicalConsole.shortname self in
    let timeout := PhysicalConsole.timeout self in
    let t0 := clock w in
    let t_off := t0 + seconds d_off in
    let t_on := t_off + interval in
    let t_up := t_on + seconds d_on in
    let c := children w in
    exists w',
      PhysicalConsole.power_off_for_interval fuel self interval w
      = (PhysicalConsole._wait_for_login fuel self None PhysicalConsole.default_attempts ;;;
         log INFO "Power off for {i} seconds completed" [AStr s; ANum interval]) w'
      /\ clock w' = t_up
      /\ trace w'
         = trace w
           ++ [(t0, Log INFO "Power off {s} for {i} seconds" [AStr s; ANum interval])]
           ++ stamped t0 (credentials_warning self)
           ++ [(t0, Spawn c (PhysicalConsole._build_command self "power off"));
               (t_off, Expect c [Str "Chassis Power Control: Down/Off"] timeout
                         (MatchedPattern 0));
               (t_on, Sleep interval)]
           ++ stamped t_on (credentials_warning self)
           ++ [(t_on, Spawn (S c) (PhysicalConsole._build_command self "power on"));
               (t_up, Expect (S c) [Str "Chassis Power Control: Up/On"] timeout
                        (MatchedPattern 0))].
Proof.
  intros fuel self interval w d_off d_on Hi _ R1 L1 R2 L2 s timeout t0 t_off t_on t_up c.
  unfold PhysicalConsole.power_off_for_interval.
  rewrite (bind_run _ (log_run _ _ _ _)).
  rewrite (bind_run _ (pexpect_spawn_run _ _ _)).
  erewrite (bind_run _); cycle 1.
  { apply expect_marker_run with (d := d_off) (i := 0%nat);
      autorewrite with world; auto. }
  rewrite (bind_run _ (sleep_run _ _ Hi)).
  rewrite (bind_run _ (pexpect_spawn_run _ _ _)).
  erewrite (bind_run _); cycle 1.
  { apply expect_marker_run with (d := d_on) (i := 0%nat);
      autorewrite with world; auto. }
  eexists. split; [reflexivity|].
  autorewrite with world. split; [reflexivity|].
  rewrite trace_heard, trace_started, trace_slept, trace_heard, trace_started,
    trace_record.
  autorewrite with world. unfold stamped. rewrite !map_app. simpl.
  rewrite <- !app_assoc. reflexivity.
Qed.

Lemma power_off_for_interval_sequence_witness :
  let w := fresh (always (Marker instantly)) in
  0 <= 5
  /\ 5 <= longest_sleep
  /\ replies w (waits w) = Marker instantly
  /\ seconds instantly <= patience (PhysicalConsole.timeout cephN)
  /\ replies w (S (waits w)) = Marker instantly
  /\ seconds instantly <= patience (PhysicalConsole.timeout cephN)
  /\ exists w',
      PhysicalConsole.power_off_for_interval 3 cephN 5 w
      = (PhysicalConsole._wait_for_login 3 cephN None PhysicalConsole.default_attempts ;;;
         log INFO "Power off for {i} seconds completed" [AStr "cephN"; ANum 5]) w'
      /\ clock w' = 0 + 0 + 5 + 0
      /\ trace w'
         = [(0, Log INFO "Power off {s} for {i} seconds" [AStr "cephN"; ANum 5]);
            (0, Spawn 0 "ipmitool -H cephN.example.com -I lanplus -U u -P p power off");
            (0 + 0,
             Expect 0 [Str "Chassis Power Control: Down/Off"] 20 (MatchedPattern 0));
            (0 + 0 + 5, Sleep 5);
            (0 + 0 + 5,
             Spawn 1 "ipmitool -H cephN.example.com -I lanplus -U u -P p power on");
            (0 + 0 + 5 + 0,
             Expect 1 [Str "Chassis Power Control: Up/On"] 20 (MatchedPattern 0))].
Proof.
  intros w.
  assert (H1 : 0 <= 5) by discriminate.
  assert (H2 : seconds instantly <= patience (PhysicalConsole.timeout cephN))
    by discriminate.
  assert (H3 : 5 <= longest_sleep) by discriminate.
  repeat (split; [first [exact H1 | exact H2 | exact H3 | reflexivity]|]).
  exact (power_off_for_interval_sequence 3 cephN 5 w instantly instantly
           H1 H3 eq_refl H2 eq_refl H2).
Defined.

(** The sleep and the power on depend on the acknowledgments.  On a machine
    that never answers, the wait for Down/Off runs into the console's 20
    seconds and raises pexpect's TIMEOUT: nothing is slept and power on is
    never spawned.  When the stream of power off closes instead, the wait
    raises EOF at once, with the same end.  When Down/Off is acknowledged
    and Up/On is not, the method has slept and spawned power on and ends
    in the second wait, before any login wait. *)
Lemma power_off_for_interval_needs_acknowledgments :
  let run r := PhysicalConsole.power_off_for_interval 3 cephN 5 (fresh r) in
  let off := "ipmitool -H cephN.example.com -I lanplus -U u -P p power off" in
  let on := "ipmitool -H cephN.example.com -I lanplus -U u -P p power on" in
  let start := Log INFO "Power off {s} for {i} seconds" [AStr "cephN"; ANum 5] in
  run (always Silent)
  = (Raise PexpectTIMEOUT,
     {| clock := 20; replies := always Silent; waits := 1; children := 1;
        trace := [(0, start); (0, Spawn 0 off);
                  (20, Expect 0 [Str "Chassis Power Control: Down/Off"] 20 Timeout)] |})
  /\ run (always (Closed instantly))
     = (Raise PexpectEOF,
        {| clock := 0; replies := always (Closed instantly); waits := 1; children := 1;
           trace := [(0, start); (0, Spawn 0 off);
                     (0, Expect 0 [Str "Chassis Power Control: Down/Off"] 20
                           EndOfStream)] |})
  /\ fst (run (fun n => match n with O => Marker instantly | _ => Silent end))
     = Raise PexpectTIMEOUT
  /\ events (snd (run (fun n => match n with O => Marker instantly | _ => Silent end)))
     = [start; Spawn 0 off;
        Expect 0 [Str "Chassis Power Control: Down/Off"] 20 (MatchedPattern 0);
        Sleep 5; Spawn 1 on;
        Expect 1 [Str "Chassis Power Control: Up/On"] 20 Timeout].
Proof.
  repeat split; vm_compute; reflexivity.
Qed.

(** ** check_power: termination, elapsed time and wait bounds *)

Lemma wait_bounds_app evs evs' :
  wait_bounds (evs ++ evs') = wait_bounds evs ++ wait_bounds evs'.
Proof.
  induction evs as [|e evs IH]; [reflexivity|].
  destruct e; simpl; now rewrite IH.
Qed.

Lemma wait_bounds_warning self : wait_bounds (credentials_warning self) = [].
Proof.
  unfold credentials_warning.
  now destruct (PhysicalConsole.has_ipmi_credentials self).
Qed.

Lemma inject_nat_succ n : inject_Z (Z.of_nat (S n)) == inject_Z (Z.of_nat n) + 1.
Proof.
  rewrite Nat2Z.inj_succ. unfold Z.succ. now rewrite inject_Z_plus.
Qed.

Lemma check_power_while_runs self state timeout :
  forall fuel n t total ta w,
    (n < fuel)%nat ->
    1 <= t ->
    total == 2 * t - 1 ->
    timeout - total <= inject_Z (Z.of_nat n) ->
    ta <= clock w ->
    exists b w' k,
      PhysicalConsole.check_power_while fuel self state timeout t total ta w
      = (Ret b, w')
      /\ (w' = w \/ (clock w <= clock w' /\ clock w' - clock w < timeout + 1 - t))
      /\ wait_bounds (events w') = wait_bounds (events w) ++ doubling t k.
Proof.
  induction fuel as [|fuel IH]; intros n t total ta w Hn Ht Htot Hm Hta; [lia|].
  simpl. destruct (lt total timeout) eqn:L.
  - apply lt_true in L.
    rewrite (bind_run _ (pexpect_spawn_run _ _ _)).
    set (w1 := started self "power status" w).
    set (patterns := [Str ("Chassis Power is " ++ state)%string; EOF; TIMEOUT]).
    destruct (expect_never_raises (children w) ("Chassis Power is " ++ state)%string
                EOF TIMEOUT t w1) as (r & E & R0 & _); [auto|].
    fold patterns in E, R0.
    subst w1. autorewrite with world in E, R0.
    set (w1 := started self "power status" w) in *.
    set (o := fst (await patterns (replies w (waits w)) t)) in *.
    set (d := snd (await patterns (replies w (waits w)) t)) in *.
    assert (D0 : 0 <= d) by apply await_nonneg.
    assert (D1 : d <= t) by (apply await_within; lra).
    set (w2 := heard (children w) patterns t o d w1) in *.
    assert (C2 : clock w2 = clock w + d)
      by (subst w2 w1; now autorewrite with world).
    assert (B2 : wait_bounds (events w2) = wait_bounds (events w) ++ [t]).
    { subst w2 w1. rewrite events_heard, events_started, !wait_bounds_app,
        wait_bounds_warning. simpl. now rewrite app_nil_r. }
    rewrite (bind_run _ E). rewrite (bind_run _ (time_run _)).
    destruct (Nat.eqb r 0).
    + exists true, w2, 1%nat. unfold ret. split; [reflexivity|]. split.
      * right. rewrite C2. split; lra.
      * exact B2.
    + destruct n as [|n].
      { exfalso. change (inject_Z (Z.of_nat 0)) with 0 in Hm. lra. }
      rewrite inject_nat_succ in Hm.
      assert (exists w3,
                 (if Nat.eqb r 1
                  then if lt (clock w2 - ta) t
                       then sleep (t - (clock w2 - ta)) else ret tt
                  else ret tt) w2 = (Ret tt, w3)
                 /\ clock w2 <= clock w3 /\ clock w3 <= clock w + t
                 /\ wait_bounds (events w3) = wait_bounds (events w2))
        as (w3 & E3 & C3 & C3' & B3).
      { destruct (Nat.eqb r 1); [destruct (lt (clock w2 - ta) t) eqn:Ls|].
        - apply lt_true in Ls. exists (slept (t - (clock w2 - ta)) w2).
          split; [apply sleep_run; lra|]. autorewrite with world.
          rewrite events_slept, wait_bounds_app, C2. simpl. rewrite app_nil_r.
          rewrite C2 in Ls. repeat split; lra.
        - exists w2. unfold ret. rewrite C2. repeat split; lra.
        - exists w2. unfold ret. rewrite C2. repeat split; lra. }
      rewrite (bind_run _ E3).
      destruct (IH n (t * 2) (total + t * 2) (clock w2) w3)
        as (b & w' & k & E' & C' & B'); try lia; try lra.
      exists b, w', (S k). split; [exact E'|]. split.
      * right. rewrite C2 in C3. destruct C' as [->|[C' C'']]; split; lra.
      * rewrite B', B3, B2, <- app_assoc. reflexivity.
  - exists false, w, 0%nat. unfold ret. split; [reflexivity|]. split; [auto|].
    simpl. now rewrite app_nil_r.
Qed.

Lemma check_power_fuel_enough timeout :
  timeout - 1 <= inject_Z (Z.of_nat (Z.to_nat (Qceiling timeout))).
Proof.
  assert (H := Qle_ceiling timeout).
  assert (H' : inject_Z (Qceiling timeout)
               <= inject_Z (Z.of_nat (Z.to_nat (Qceiling timeout)))).
  { rewrite <- Zle_Qle. lia. }
  lra.
Qed.

(** Whatever the replies, [check_power] returns a boolean when its fuel is
    at least [check_power_fuel] of the timeout it works with; the clock has
    then moved by less than that timeout, or not at all, and the bounds of
    its waits are 1, 2, 4 and so on. *)
Lemma check_power_returns fuel self state timeout w :
  let limit := or_num timeout (PhysicalConsole.timeout self) in
  (check_power_fuel limit <= fuel)%nat ->
  exists b w' k,
    PhysicalConsole.check_power fuel self state timeout w = (Ret b, w')
    /\ (w' = w \/ (clock w <= clock w' /\ clock w' - clock w < limit))
    /\ wait_bounds (events w') = wait_bounds (events w) ++ doubling 1 k.
Proof.
  intros limit Hf. unfold PhysicalConsole.check_power. fold limit.
  rewrite (bind_run _ (time_run _)).
  destruct (check_power_while_runs self state limit fuel
              (Z.to_nat (Qceiling limit)) 1 1 (clock w) w)
    as (b & w' & k & E & C & B).
  - unfold check_power_fuel in Hf. lia.
  - lra.
  - lra.
  - apply check_power_fuel_enough.
  - lra.
  - exists b, w', k. split; [exact E|]. split; [|exact B].
    destruct C as [->|[C C']]; [auto|right; split; lra].
Qed.

(** ** The login wait: windows and sessions *)

Lemma login_outcome self r t :
  let login := fst (await (login_patterns self) r t) in
  login = MatchedPattern 0 \/ login = Timeout \/ login = EndOfStream.
Proof.
  intros login. subst login.
  destruct (await_cases (login_patterns self) r t)
    as [(i & d & _ & P & _ & ->)|[(d & _ & _ & ->)| ->]]; simpl; auto.
  inversion P. auto.
Qed.

Lemma unanswered_sessions_app self bound evs evs' :
  unanswered_sessions self bound evs -> unanswered_sessions self bound evs' ->
  unanswered_sessions self bound (evs ++ evs').
Proof.
  induction 1 as [|child t login t' ack child' rest Hl Hb _ IH]; intros H'.
  - exact H'.
  - rewrite <- app_assoc. constructor; [exact Hl|exact Hb|]. now apply IH.
Qed.

Lemma unanswered_sessions_one self bound child t login t' ack child' :
  login = Timeout \/ login = EndOfStream ->
  0 < t /\ t <= bound ->
  unanswered_sessions self bound (exited_session self child t login t' ack child').
Proof.
  intros H Hb. rewrite <- (app_nil_r (exited_session _ _ _ _ _ _ _)).
  constructor; [exact H|exact Hb|constructor].
Qed.

Lemma answered_after_unanswered self bound evs evs' :
  unanswered_sessions self bound evs -> answered_at_last self bound evs' ->
  answered_at_last self bound (evs ++ evs').
Proof.
  intros H (before & child & t & t' & ack & child' & -> & H0 & Hb & Hu).
  exists (evs ++ before), child, t, t', ack, child'.
  split; [now rewrite app_assoc|]. split; [exact H0|]. split; [exact Hb|].
  now apply unanswered_sessions_app.
Qed.

(** How one window of the login wait can end: on the first session that
    sees the login prompt, or with no session having seen it once [t] has
    passed since [start]; it never raises, and every wait for the prompt is
    given what is left of [t]. *)
Lemma wait_for_login_while_ends fuel self t start w :
  start <= clock w ->
  match PhysicalConsole._wait_for_login_while fuel self t start w with
  | (Ret true, w') =>
      clock w <= clock w'
      /\ exists evs, events w' = events w ++ evs /\ answered_at_last self t evs
  | (Ret false, w') =>
      clock w <= clock w' /\ t <= clock w' - start
      /\ exists evs, events w' = events w ++ evs /\ unanswered_sessions self t evs
  | (Raise _, _) => False
  | (OutOfFuel, _) => True
  end.
Proof.
  revert w. induction fuel as [|fuel IH]; intros w Hs; [exact I|].
  simpl. rewrite (bind_run _ (time_run _)).
  destruct (lt (clock w - start) t) eqn:L.
  - apply lt_true in L.
    assert (Hb : 0 < t - (clock w - start) /\ t - (clock w - start) <= t)
      by (split; lra).
    destruct (login_session_run self t start w)
      as (r & w1 & E & R0 & T & _ & _ & C).
    assert (C1 : clock w <= clock w1).
    { rewrite C.
      assert (D := await_nonneg (login_patterns self) (replies w (waits w))
                     (t - (clock w - start))).
      assert (D' := await_nonneg exit_patterns (replies w (S (waits w)))
                      (PhysicalConsole.timeout self)).
      lra. }
    rewrite (bind_run _ E).
    destruct (Nat.eqb r 0) eqn:Er.
    + apply Nat.eqb_eq, R0 in Er. rewrite Er in T. unfold ret.
      split; [exact C1|].
      eexists. split; [exact T|].
      eexists [], _, _, _, _, _. split; [reflexivity|].
      split; [apply Hb|]. split; [apply Hb|constructor].
    + assert (Hl : fst (await (login_patterns self) (replies w (waits w))
                          (t - (clock w - start))) = Timeout
                   \/ fst (await (login_patterns self) (replies w (waits w))
                             (t - (clock w - start))) = EndOfStream).
      { destruct (login_outcome self (replies w (waits w)) (t - (clock w - start)))
          as [H|H]; [|exact H].
        apply R0 in H. subst r. discriminate Er. }
      assert (Hs1 : start <= clock w1) by lra.
      specialize (IH w1 Hs1).
      destruct (PhysicalConsole._wait_for_login_while fuel self t start w1)
        as [[[|]|e|] w'].
      * destruct IH as (C' & evs & T' & A). split; [lra|].
        eexists. rewrite T', T, <- app_assoc. split; [reflexivity|].
        apply answered_after_unanswered; [|exact A].
        now apply unanswered_sessions_one.
      * destruct IH as (C' & Ct & evs & T' & U). split; [lra|]. split; [exact Ct|].
        eexists. rewrite T', T, <- app_assoc. split; [reflexivity|].
        constructor; assumption.
      * exact IH.
      * exact I.
  - unfold ret. apply lt_false in L. split; [lra|]. split; [exact L|].
    exists []. rewrite app_nil_r. split; [reflexivity|constructor].
Qed.


(** *** Termination when replies take time *)

Lemma inject_nat_nonneg n : 0 <= inject_Z (Z.of_nat n).
Proof.
  change 0 with (inject_Z 0). rewrite <- Zle_Qle. lia.
Qed.

Lemma window_fuel_enough t eps :
  0 < eps ->
  t <= inject_Z (Z.of_nat (Z.to_nat (Qceiling (t / eps)))) * eps.
Proof.
  intros He.
  assert (H : t / eps <= inject_Z (Z.of_nat (Z.to_nat (Qceiling (t / eps))))).
  { apply Qle_trans with (inject_Z (Qceiling (t / eps))); [apply Qle_ceiling|].
    rewrite <- Zle_Qle. lia. }
  apply (Qmult_le_compat_r _ _ eps) in H; [|lra].
  assert (Ht : t / eps * eps == t) by (field; lra).
  now rewrite Ht in H.
Qed.




(** *** Counting the sessions *)



Lemma spawned_app self cmd evs evs' :
  spawned self cmd (evs ++ evs') = (spawned self cmd evs + spawned self cmd evs')%nat.
Proof.
  unfold spawned. now rewrite filter_app, length_app.
Qed.

Lemma spawned_warning self cmd : spawned self cmd (credentials_warning self) = 0%nat.
Proof.
  unfold credentials_warning.
  now destruct (PhysicalConsole.has_ipmi_credentials self).
Qed.

Lemma spawned_cons self cmd e evs :
  spawned self cmd (e :: evs)
  = ((if is_spawn_of (PhysicalConsole._build_command self cmd) e then 1 else 0)
     + spawned self cmd evs)%nat.
Proof.
  unfold spawned. cbn [filter].
  now destruct (is_spawn_of (PhysicalConsole._build_command self cmd) e).
Qed.





(** ** The transitions *)

(** A wait for the acknowledgment of a command or the end of the stream:
    the marker gives 0, the end of the stream 1, and the timeout, which the
    pattern list does not name, is raised. *)
Lemma expect_marker_or_eof child marker t w :
  let patterns := [Str marker; EOF] in
  let o := fst (await patterns (replies w (waits w)) t) in
  let d := snd (await patterns (replies w (waits w)) t) in
  expect child patterns t w
  = (match o with
     | MatchedPattern _ => Ret 0%nat
     | EndOfStream => Ret 1%nat
     | Timeout => Raise PexpectTIMEOUT
     end,
     heard child patterns t o d w).
Proof.
  intros patterns o d. subst o d. unfold expect.
  destruct (await_cases patterns (replies w (waits w)) t)
    as [(i & dl & _ & P & _ & ->)|[(dl & _ & _ & ->)| ->]]; simpl; try reflexivity.
  inversion P. reflexivity.
Qed.

(** With replies that take [eps] or more, the command loop comes to its end:
    it returns, or a wait ran into its timeout. *)
Lemma command_while_terminates self eps start cmd marker :
  0 < eps ->
  forall fuel n w,
    (n < fuel)%nat ->
    PhysicalConsole.timeout self - (clock w - start) <= inject_Z (Z.of_nat n) * eps ->
    (forall k, slow eps (replies w k)) ->
    exists o w',
      PhysicalConsole.command_while fuel self start cmd marker w = (o, w')
      /\ (o = Ret tt \/ o = Raise PexpectTIMEOUT).
Proof.
  intros He. induction fuel as [|fuel IH]; intros n w Hn Hm Hs; [lia|].
  simpl. rewrite (bind_run _ (time_run _)).
  destruct (lt (clock w - start) (PhysicalConsole.timeout self)) eqn:L.
  - apply lt_true in L.
    rewrite (bind_run _ (pexpect_spawn_run _ _ _)).
    assert (E := expect_marker_or_eof (children w) marker
                   (PhysicalConsole.timeout self) (started self cmd w)).
    cbv zeta in E. autorewrite with world in E.
    set (patterns := [Str marker; EOF]) in *.
    set (T := PhysicalConsole.timeout self) in *.
    assert (D := await_nonneg patterns (replies w (waits w)) T).
    assert (O := await_cases patterns (replies w (waits w)) T).
    destruct (fst (await patterns (replies w (waits w)) T)) as [i| |] eqn:Eo.
    + rewrite (bind_run _ E). simpl. unfold ret. eauto.
    + rewrite (bind_raise _ E). eauto.
    + rewrite (bind_run _ E). simpl.
      destruct n as [|n].
      { exfalso. change (inject_Z (Z.of_nat 0)) with 0 in Hm. lra. }
      assert (Hm' : T - (clock w - start) <= inject_Z (Z.of_nat n) * eps + eps).
      { rewrite inject_nat_succ in Hm.
        assert (X : (inject_Z (Z.of_nat n) + 1) * eps
                    == inject_Z (Z.of_nat n) * eps + eps) by ring.
        now rewrite X in Hm. }
      apply (IH n); [lia| |intros k; autorewrite with world; apply Hs].
      autorewrite with world.
      destruct O as [(i & dl & _ & _ & _ & Ea)|[(dl & Er & _ & Ea)|Ea]];
        rewrite Ea in Eo; try discriminate Eo.
      rewrite Ea. simpl. specialize (Hs (waits w)). rewrite Er in Hs. simpl in Hs.
      lra.
  - unfold ret. eauto.
Qed.

(** C1: for every world, with fuel for [check_power]: once the command
    loop of [power_on] or [power_off] has ended without an exception,
    [check_power] returns a boolean, a False is logged as an error, and the
    method returns; with replies that take time and fuel for the command
    loop both methods do come to an end, and the only exception they can end
    in is the timeout of a command wait.  [power_cycle] and [hard_reset] end
    in whatever exception [_wait_for_login] raises after their command was
    sent. *)
Theorem power_on_off_log_failed_confirmation :
  forall fuel self w,
    (check_power_fuel (PhysicalConsole.timeout self) <= fuel)%nat ->
    (check_power_fuel 60 <= fuel)%nat ->
    let s := PhysicalConsole.shortname self in
    match PhysicalConsole.command_while fuel self (clock w) "power on"
            "Chassis Power Control: Up/On" (record (Log INFO "Power on {s}" [AStr s]) w)
    with
    | (Ret _, w1) =>
        exists ok w2,
          PhysicalConsole.check_power fuel self "on" None w1 = (Ret ok, w2)
          /\ PhysicalConsole.power_on fuel self w
             = (Ret tt,
                record (Log INFO "Power on for {s} completed" [AStr s])
                  (if ok then w2
                   else record (Log ERROR "Failed to power on {s}" [AStr s]) w2))
    | _ => True
    end
    /\ match PhysicalConsole.command_while fuel self (clock w) "power off"
               "Chassis Power Control: Down/Off"
               (record (Log INFO "Power off {s}" [AStr s]) w)
       with
       | (Ret _, w1) =>
           exists ok w2,
             PhysicalConsole.check_power fuel self "off" (Some 60) w1 = (Ret ok, w2)
             /\ PhysicalConsole.power_off fuel self w
                = (Ret tt,
                   record (Log INFO "Power off for {s} completed" [AStr s])
                     (if ok then w2
                      else record (Log ERROR "Failed to power off {s}" [AStr s]) w2))
       | _ => True
       end
    /\ match expect (children w) [Str "Chassis Power Control: Cycle"]
               (PhysicalConsole.timeout self)
               (started self "power cycle"
                  (record (Log INFO "Power cycling {s}" [AStr s]) w))
       with
       | (Ret _, w1) =>
           match PhysicalConsole._wait_for_login fuel self (Some 300)
                   PhysicalConsole.default_attempts w1
           with
           | (Raise e, w2) => PhysicalConsole.power_cycle fuel self w = (Raise e, w2)
           | _ => True
           end
       | _ => True
       end
    /\ match PhysicalConsole.command_while fuel self (clock w) "power reset"
               "Chassis Power Control: Reset"
               (record (Log INFO "Performing hard reset of {s}" [AStr s]) w)
       with
       | (Ret _, w1) =>
           match PhysicalConsole._wait_for_login fuel self None
                   PhysicalConsole.default_attempts w1
           with
           | (Raise e, w2) => PhysicalConsole.hard_reset fuel self w = (Raise e, w2)
           | _ => True
           end
       | _ => True
       end
    /\ (forall eps,
           0 < eps ->
           (forall k, slow eps (replies w k)) ->
           (window_fuel (PhysicalConsole.timeout self) eps <= fuel)%nat ->
           (fst (PhysicalConsole.power_on fuel self w) = Ret tt
            \/ fst (PhysicalConsole.power_on fuel self w) = Raise PexpectTIMEOUT)
           /\ (fst (PhysicalConsole.power_off fuel self w) = Ret tt
               \/ fst (PhysicalConsole.power_off fuel self w) = Raise PexpectTIMEOUT)).
Proof.
  intros fuel self w Hon Hoff s.
  assert (Hloop : forall eps cmd marker w0,
             0 < eps ->
             (forall k, slow eps (replies w k)) ->
             (window_fuel (PhysicalConsole.timeout self) eps <= fuel)%nat ->
             replies w0 = replies w ->
             exists o w',
               PhysicalConsole.command_while fuel self (clock w0) cmd marker w0
               = (o, w')
               /\ (o = Ret tt \/ o = Raise PexpectTIMEOUT)).
  { intros eps cmd marker w0 He Hs Hf Hr. unfold window_fuel in Hf.
    apply (command_while_terminates self eps (clock w0) cmd marker He fuel
             (Z.to_nat (Qceiling (PhysicalConsole.timeout self / eps)))); [lia| |].
    - assert (X := window_fuel_enough (PhysicalConsole.timeout self) eps He). lra.
    - intros k. rewrite Hr. apply Hs. }
  split; [|split; [|split; [|split]]].
  - unfold PhysicalConsole.power_on.
    rewrite (bind_run _ (log_run _ _ _ _)). rewrite (bind_run _ (time_run _)).
    autorewrite with world. fold s.
    destruct (PhysicalConsole.command_while fuel self (clock w) "power on" _ _)
      as [[[]|e|] w1] eqn:E; [|exact I|exact I].
    destruct (check_power_returns fuel self "on" None w1 Hon)
      as (ok & w2 & k & Ec & _).
    exists ok, w2. split; [exact Ec|].
    rewrite (bind_run _ E). rewrite (bind_run _ Ec).
    destruct ok; reflexivity.
  - unfold PhysicalConsole.power_off.
    rewrite (bind_run _ (log_run _ _ _ _)). rewrite (bind_run _ (time_run _)).
    autorewrite with world. fold s.
    destruct (PhysicalConsole.command_while fuel self (clock w) "power off" _ _)
      as [[[]|e|] w1] eqn:E; [|exact I|exact I].
    destruct (check_power_returns fuel self "off" (Some 60) w1 Hoff)
      as (ok & w2 & k & Ec & _).
    exists ok, w2. split; [exact Ec|].
    rewrite (bind_run _ E). rewrite (bind_run _ Ec).
    destruct ok; reflexivity.
  - unfold PhysicalConsole.power_cycle.
    rewrite (bind_run _ (log_run _ _ _ _)).
    rewrite (bind_run _ (pexpect_spawn_run _ _ _)).
    autorewrite with world. fold s.
    destruct (expect (children w) _ _ _) as [[r|e|] w1] eqn:E; try exact I.
    destruct (PhysicalConsole._wait_for_login fuel self (Some 300) _ w1)
      as [[[]|e|] w2] eqn:E'; try exact I.
    rewrite (bind_run _ E). now rewrite (bind_raise _ E').
  - unfold PhysicalConsole.hard_reset.
    rewrite (bind_run _ (log_run _ _ _ _)). rewrite (bind_run _ (time_run _)).
    autorewrite with world. fold s.
    destruct (PhysicalConsole.command_while fuel self (clock w) "power reset" _ _)
      as [[[]|e|] w1] eqn:E; try exact I.
    destruct (PhysicalConsole._wait_for_login fuel self None _ w1)
      as [[[]|e|] w2] eqn:E'; try exact I.
    rewrite (bind_run _ E). now rewrite (bind_raise _ E').
  - intros eps He Hs Hf. split.
    + unfold PhysicalConsole.power_on.
      rewrite (bind_run _ (log_run _ _ _ _)). rewrite (bind_run _ (time_run _)).
      autorewrite with world.
      destruct (Hloop eps "power on" "Chassis Power Control: Up/On"
                  (record (Log INFO "Power on {s}" [AStr s]) w) He Hs Hf eq_refl)
        as (o & w1 & E & [-> | ->]).
      * autorewrite with world in E. rewrite (bind_run _ E).
        destruct (check_power_returns fuel self "on" None w1 Hon)
          as (ok & w2 & k & Ec & _).
        rewrite (bind_run _ Ec). left. destruct ok; reflexivity.
      * autorewrite with world in E. rewrite (bind_raise _ E). now right.
    + unfold PhysicalConsole.power_off.
      rewrite (bind_run _ (log_run _ _ _ _)). rewrite (bind_run _ (time_run _)).
      autorewrite with world.
      destruct (Hloop eps "power off" "Chassis Power Control: Down/Off"
                  (record (Log INFO "Power off {s}" [AStr s]) w) He Hs Hf eq_refl)
        as (o & w1 & E & [-> | ->]).
      * autorewrite with world in E. rewrite (bind_run _ E).
        destruct (check_power_returns fuel self "off" (Some 60) w1 Hoff)
          as (ok & w2 & k & Ec & _).
        rewrite (bind_run _ Ec). left. destruct ok; reflexivity.
      * autorewrite with world in E. rewrite (bind_raise _ E). now right.
Qed.

Lemma power_on_off_log_failed_confirmation_witness :
  let w := fresh (fun n => match n with O => Marker instantly | _ => Silent end) in
  (check_power_fuel (PhysicalConsole.timeout cephN) <= 61)%nat
  /\ (check_power_fuel 60 <= 61)%nat
  /\ exists w2,
      PhysicalConsole.power_on 61 cephN w
      = (Ret tt,
         record (Log INFO "Power on for {s} completed" [AStr "cephN"])
           (record (Log ERROR "Failed to power on {s}" [AStr "cephN"]) w2)).
Proof.
  intros w.
  assert (H1 : (check_power_fuel (PhysicalConsole.timeout cephN) <= 61)%nat)
    by (vm_compute; lia).
  assert (H2 : (check_power_fuel 60 <= 61)%nat) by (vm_compute; lia).
  split; [exact H1|]. split; [exact H2|].
  destruct (power_on_off_log_failed_confirmation 61 cephN w H1 H2) as (A & _).
  destruct (PhysicalConsole.command_while 61 cephN (clock w) "power on" _ _)
    as [[[]|e|] w1] eqn:E in A; vm_compute in E; try discriminate E.
  injection E as <-. destruct A as (ok & w2 & Ec & Ep).
  vm_compute in Ec. injection Ec as <- <-.
  eexists. exact Ep.
Defined.

(** ** check_status *)

(** [check_status] turns every exception of the login wait into False. *)
Lemma check_status_never_raises fuel self timeout w :
  match fst (PhysicalConsole.check_status fuel self timeout w) with
  | Raise _ => False
  | _ => True
  end.
Proof.
  unfold PhysicalConsole.check_status, try_except, bind.
  destruct (PhysicalConsole._wait_for_login fuel self timeout
              PhysicalConsole.default_attempts w) as [[[]|e|] w']; exact I.
Qed.

(** * Further properties *)

(** ** check_power: what its result says about its polls *)

Lemma spawned_poll self state child t o :
  spawned self "power status" (poll self state child t o) = 1%nat.
Proof.
  unfold poll. rewrite spawned_app, spawned_warning, !spawned_cons.
  cbn [is_spawn_of]. now rewrite String.eqb_refl.
Qed.

Lemma wait_bounds_poll self state child t o :
  wait_bounds (poll self state child t o) = [t].
Proof.
  unfold poll. now rewrite wait_bounds_app, wait_bounds_warning.
Qed.

Lemma failed_polls_one self state child t o pause :
  o = Timeout \/ o = EndOfStream ->
  pause = [] \/ (exists s, 0 < s /\ o = EndOfStream /\ pause = [Sleep s]) ->
  failed_polls self state (poll self state child t o ++ pause).
Proof.
  intros Ho Hp. rewrite <- (app_nil_r pause). constructor; [exact Ho|exact Hp|constructor].
Qed.

Lemma check_power_while_shape self state timeout :
  forall fuel t total ta w,
    1 <= t ->
    total == 2 * t - 1 ->
    ta <= clock w ->
    let run := PhysicalConsole.check_power_while fuel self state timeout t total ta w in
    (snd run = w
     \/ (clock w <= clock (snd run) /\ clock (snd run) - clock w < timeout + 1 - t))
    /\ exists evs k,
        events (snd run) = events w ++ evs
        /\ wait_bounds evs = doubling t k
        /\ spawned self "power status" evs = k
        /\ (forall b, In b (doubling t k) -> 2 * b - 1 < timeout)
        /\ match fst run with
           | Ret true =>
               exists before child t',
                 evs = before ++ poll self state child t' (MatchedPattern 0)
                 /\ failed_polls self state before
           | Ret false => failed_polls self state evs /\ timeout <= 2 * doubled t k - 1
           | Raise _ => False
           | OutOfFuel => failed_polls self state evs
           end.
Proof.
  induction fuel as [|fuel IH]; intros t total ta w Ht Htot Hta run; subst run.
  { simpl. split; [auto|]. exists [], 0%nat. rewrite app_nil_r.
    repeat split; try constructor. intros b []. }
  simpl. destruct (lt total timeout) eqn:L.
  - apply lt_true in L.
    rewrite (bind_run _ (pexpect_spawn_run _ _ _)).
    set (w1 := started self "power status" w).
    fold (status_patterns state).
    destruct (expect_never_raises (children w) ("Chassis Power is " ++ state)%string
                EOF TIMEOUT t w1) as (r & E & R0 & RT & RE & RM); [auto|].
    fold (status_patterns state) in E, R0, RT, RE, RM.
    subst w1. autorewrite with world in E, R0, RT, RE, RM.
    set (w1 := started self "power status" w) in *.
    set (o := fst (await (status_patterns state) (replies w (waits w)) t)) in *.
    set (d := snd (await (status_patterns state) (replies w (waits w)) t)) in *.
    assert (D0 : 0 <= d) by apply await_nonneg.
    assert (D1 : d <= t) by (apply await_within; lra).
    set (w2 := heard (children w) (status_patterns state) t o d w1) in *.
    assert (C2 : clock w2 = clock w + d) by (subst w2 w1; now autorewrite with world).
    assert (T2 : events w2 = events w ++ poll self state (children w) t o).
    { subst w2 w1. rewrite events_heard, events_started. unfold poll.
      now rewrite <- !app_assoc. }
    assert (Hb : forall b, In b [t] -> 2 * b - 1 < timeout).
    { intros b [<-|[]]. lra. }
    rewrite (bind_run _ E). rewrite (bind_run _ (time_run _)).
    destruct (Nat.eqb r 0) eqn:Er.
    + apply Nat.eqb_eq, R0 in Er. unfold ret. simpl fst. simpl snd. split.
      * right. rewrite C2. split; lra.
      * exists (poll self state (children w) t o), 1%nat.
        split; [exact T2|]. rewrite wait_bounds_poll, spawned_poll.
        repeat split; auto.
        exists [], (children w), t. rewrite Er. split; [reflexivity|constructor].
    + assert (Ho : o = Timeout \/ o = EndOfStream).
      { destruct o as [i| |] eqn:Eo; auto.
        exfalso. rewrite (RM i eq_refl) in R0.
        assert (r = 0%nat) by now apply R0. subst r. discriminate Er. }
      assert (exists w3 pause,
                 (if Nat.eqb r 1
                  then if lt (clock w2 - ta) t
                       then sleep (t - (clock w2 - ta)) else ret tt
                  else ret tt) w2 = (Ret tt, w3)
                 /\ clock w2 <= clock w3 /\ clock w3 <= clock w + t
                 /\ events w3 = events w2 ++ pause
                 /\ (pause = []
                     \/ exists s, 0 < s /\ o = EndOfStream /\ pause = [Sleep s]))
        as (w3 & pause & E3 & C3 & C3' & T3 & P3).
      { destruct (Nat.eqb r 1) eqn:Er1; [destruct (lt (clock w2 - ta) t) eqn:Ls|].
        - apply lt_true in Ls. rewrite C2 in Ls.
          exists (slept (t - (clock w2 - ta)) w2), [Sleep (t - (clock w2 - ta))].
          split; [apply sleep_run; rewrite C2; lra|]. autorewrite with world.
          rewrite events_slept, C2. repeat split; try lra.
          right. exists (t - (clock w + d - ta)). repeat split; [lra|].
          destruct Ho as [Ho|Ho]; [|exact Ho].
          specialize (RT Ho). simpl in RT. inversion RT; subst r. discriminate Er1.
        - exists w2, []. unfold ret. rewrite C2, app_nil_r. repeat split; auto; lra.
        - exists w2, []. unfold ret. rewrite C2, app_nil_r. repeat split; auto; lra. }
      rewrite (bind_run _ E3).
      destruct (IH (t * 2) (total + t * 2) (clock w2) w3)
        as (C' & evs & k & T' & B' & S' & Hb' & R'); try lra.
      split.
      * right. rewrite C2 in C3. destruct C' as [->|[C' C'']]; split; lra.
      * exists (poll self state (children w) t o ++ pause ++ evs), (S k).
        split; [rewrite T', T3, T2, <- !app_assoc; reflexivity|].
        split.
        { rewrite !wait_bounds_app, wait_bounds_poll, B'.
          destruct P3 as [->|(s & _ & _ & ->)]; reflexivity. }
        split.
        { rewrite !spawned_app, spawned_poll, S'.
          destruct P3 as [->|(s & _ & _ & ->)]; reflexivity. }
        split.
        { intros b [<-|Hin]; [lra|now apply Hb']. }
        destruct (fst (PhysicalConsole.check_power_while fuel self state timeout
                         (t * 2) (total + t * 2) (clock w2) w3)) as [[|]|e|].
        -- destruct R' as (before & child & t' & -> & F).
           exists (poll self state (children w) t o ++ pause ++ before), child, t'.
           split; [now rewrite <- !app_assoc|]. now constructor.
        -- destruct R' as (F & Hk). split; [now constructor|exact Hk].
        -- exact R'.
        -- now constructor.
  - apply lt_false in L. unfold ret. simpl. split; [auto|].
    exists [], 0%nat. rewrite app_nil_r. repeat split; try constructor.
    + intros b [].
    + simpl. lra.
Qed.

(** X1: with the fuel of [check_power_fuel], [check_power] returns a boolean
    for every world and never raises.  The clock has then moved by less
    than the timeout it works with, or the world is untouched; the bounds
    of its waits are 1, 2, 4, ..., one per power status session, and every
    bound [b] used satisfies [2 * b - 1 < timeout]. *)
Theorem check_power_ends_within_timeout :
  forall fuel self state timeout w,
    let limit := or_num timeout (PhysicalConsole.timeout self) in
    (check_power_fuel limit <= fuel)%nat ->
    exists b w' evs k,
      PhysicalConsole.check_power fuel self state timeout w = (Ret b, w')
      /\ (w' = w \/ (clock w <= clock w' /\ clock w' - clock w < limit))
      /\ events w' = events w ++ evs
      /\ wait_bounds evs = doubling 1 k
      /\ spawned self "power status" evs = k
      /\ (forall bound, In bound (doubling 1 k) -> 2 * bound - 1 < limit).
Proof.
  intros fuel self state timeout w limit Hf.
  destruct (check_power_returns fuel self state timeout w Hf) as (b & w' & _ & E & _).
  unfold PhysicalConsole.check_power in *. fold limit in E |- *.
  rewrite (bind_run _ (time_run _)) in E |- *.
  assert (S := check_power_while_shape self state limit fuel 1 1 (clock w) w).
  cbv zeta in S. rewrite E in S. simpl fst in S. simpl snd in S.
  destruct S as (C & evs & k & T & B & N & Hb & _); try lra.
  exists b, w', evs, k. split; [exact E|].
  split; [destruct C as [C|[C C']]; [auto|right; split; lra]|]. auto.
Qed.

Lemma check_power_ends_within_timeout_witness :
  let w := fresh (always Silent) in
  (check_power_fuel (or_num None (PhysicalConsole.timeout cephN)) <= 21)%nat
  /\ exists b w' evs k,
      PhysicalConsole.check_power 21 cephN "on" None w = (Ret b, w')
      /\ (w' = w \/ (clock w <= clock w' /\ clock w' - clock w < 20))
      /\ events w' = events w ++ evs
      /\ wait_bounds evs = doubling 1 k
      /\ spawned cephN "power status" evs = k
      /\ (forall bound, In bound (doubling 1 k) -> 2 * bound - 1 < 20).
Proof.
  intros w.
  assert (H : (check_power_fuel (or_num None (PhysicalConsole.timeout cephN)) <= 21)%nat)
    by (vm_compute; lia).
  split; [exact H|].
  exact (check_power_ends_within_timeout 21 cephN "on" None w H).
Defined.

(** X2: [check_power] never raises.  It returns True right after the first
    poll that saw the state, every poll before it having run into its
    timeout or the end of the stream; it returns False only after polls of
    that kind, and only when the timeout leaves no room for the next
    bound.  A sleep comes only after a poll whose stream closed, and has a
    positive length. *)
Theorem check_power_result_follows_polls :
  forall fuel self state timeout w,
    let limit := or_num timeout (PhysicalConsole.timeout self) in
    match PhysicalConsole.check_power fuel self state timeout w with
    | (Ret true, w') =>
        exists before child t,
          events w' = events w ++ before ++ poll self state child t (MatchedPattern 0)
          /\ failed_polls self state before
    | (Ret false, w') =>
        exists evs,
          events w' = events w ++ evs
          /\ failed_polls self state evs
          /\ limit <= 2 * doubled 1 (List.length (wait_bounds evs)) - 1
    | (Raise _, _) => False
    | (OutOfFuel, _) => True
    end.
Proof.
  intros fuel self state timeout w limit.
  unfold PhysicalConsole.check_power. fold limit.
  rewrite (bind_run _ (time_run _)).
  assert (S := check_power_while_shape self state limit fuel 1 1 (clock w) w).
  cbv zeta in S.
  destruct (PhysicalConsole.check_power_while fuel self state limit 1 1 (clock w) w)
    as [[[|]|e|] w']; simpl fst in S; simpl snd in S;
    destruct S as (_ & evs & k & T & B & _ & _ & R); try lra.
  - destruct R as (before & child & t & -> & F). eauto.
  - destruct R as (F & Hk). exists evs. split; [exact T|]. split; [exact F|].
    rewrite B.
    assert (L : forall t n, List.length (doubling t n) = n).
    { intros t n. revert t. induction n; intros t; simpl; auto. }
    now rewrite L.
Qed.

(** ** The exit of a session and the login wait: time and edge cases *)

Lemma le_whole (t : Q) : t <= whole t.
Proof.
  unfold whole. destruct (Qle_bool 0 t) eqn:E; [apply Qle_refl|].
  destruct (Qlt_le_dec t 0) as [H|H]; [lra|].
  apply Qle_bool_iff in H. congruence.
Qed.

Lemma whole_patience (t : Q) : whole t <= whole (patience t).
Proof.
  unfold patience. destruct (Qeq_bool t (-1)) eqn:E; [|apply Qle_refl].
  apply Qeq_bool_iff in E. unfold whole.
  destruct (Qle_bool 0 t) eqn:L; [apply Qle_bool_iff in L; lra|discriminate].
Qed.

Lemma await_within_whole patterns r t :
  snd (await patterns r t) <= whole (patience t).
Proof.
  destruct (await_cases patterns r t)
    as [(i & d & _ & _ & L & ->)|[(d & _ & L & ->)| ->]]; simpl.
  - assert (H := seconds_nonneg d). rewrite whole_of_nonneg; lra.
  - assert (H := seconds_nonneg d). rewrite whole_of_nonneg; lra.
  - apply Qle_refl.
Qed.

Lemma spawned_single self cmd child command :
  spawned self cmd [Spawn child command]
  = if String.eqb command (PhysicalConsole._build_command self cmd) then 1%nat else 0%nat.
Proof.
  unfold spawned. simpl.
  now destruct (String.eqb command (PhysicalConsole._build_command self cmd)).
Qed.

(** X3: [_exit_session] returns whatever the child answers: its wait names
    TIMEOUT and EOF in its pattern list, so neither is raised.  It sends
    the bytes ~. and waits once under the timeout it works with (its
    argument unless that is None or zero, the console's timeout otherwise),
    which stands for the child's own 30 seconds when it is -1: the wait
    lasts that long at most, and no time at all under another negative
    timeout.  It spawns sol deactivate exactly when that wait did not see
    the acknowledgment. *)
Theorem exit_session_returns_on_any_answer :
  forall self child timeout w,
    let t := or_num timeout (PhysicalConsole.timeout self) in
    exists w' ack,
      PhysicalConsole._exit_session self child timeout w = (Ret tt, w')
      /\ clock w <= clock w' /\ clock w' - clock w <= whole (patience t)
      /\ waits w' = S (waits w)
      /\ ack = fst (await exit_patterns (replies w (waits w)) t)
      /\ events w' = events w ++ [Send child "~."; Expect child exit_patterns t ack]
                      ++ match ack with
                         | MatchedPattern _ => []
                         | _ => credentials_warning self
                                ++ [Spawn (children w)
                                      (PhysicalConsole._build_command self
                                         "sol deactivate")]
                         end
      /\ children w' = match ack with
                       | MatchedPattern _ => children w
                       | _ => S (children w)
                       end.
Proof.
  intros self child timeout w t.
  assert (D := await_nonneg exit_patterns (replies w (waits w)) t).
  assert (D' := await_within_whole exit_patterns (replies w (waits w)) t).
  unfold PhysicalConsole._exit_session.
  rewrite (bind_run _ (send_run child "~." w)). fold t.
  destruct (expect_never_raises child "terminated ipmitool" TIMEOUT EOF t
              (record (Send child "~.") w)) as (r & E & R0 & RT & RE & RM); [auto|].
  fold exit_patterns in E, R0, RT, RE, RM.
  autorewrite with world in E, R0, RT, RE, RM.
  rewrite (bind_run _ E).
  set (ack := fst (await exit_patterns (replies w (waits w)) t)) in *.
  destruct ack as [i| |] eqn:Ea.
  - rewrite (RM i eq_refl) in R0. assert (r = 0%nat) as -> by now apply R0.
    simpl. unfold ret. eexists _, (MatchedPattern i). split; [reflexivity|].
    autorewrite with world. rewrite events_heard, events_record, <- app_assoc.
    repeat split; auto; lra.
  - specialize (RT eq_refl). inversion RT; subst r. simpl.
    rewrite (bind_run _ (pexpect_spawn_run _ _ _)). unfold ret.
    eexists _, Timeout. split; [reflexivity|].
    autorewrite with world.
    rewrite events_started, events_heard, events_record, <- !app_assoc.
    autorewrite with world. repeat split; auto; lra.
  - specialize (RE eq_refl). inversion RE; subst r. simpl.
    rewrite (bind_run _ (pexpect_spawn_run _ _ _)). unfold ret.
    eexists _, EndOfStream. split; [reflexivity|].
    autorewrite with world.
    rewrite events_started, events_heard, events_record, <- !app_assoc.
    autorewrite with world. repeat split; auto; lra.
Qed.

(** *** How long the login wait can last *)

Lemma wait_for_login_while_time fuel self t start w :
  start <= clock w ->
  let w' := snd (PhysicalConsole._wait_for_login_while fuel self t start w) in
  clock w <= clock w'
  /\ (w' = w
      \/ clock w' <= start + t + whole (patience (PhysicalConsole.timeout self))).
Proof.
  revert w. induction fuel as [|fuel IH]; intros w Hs w'; subst w'.
  { simpl. split; [apply Qle_refl|auto]. }
  simpl. rewrite (bind_run _ (time_run _)).
  destruct (lt (clock w - start) t) eqn:L.
  - apply lt_true in L.
    destruct (login_session_run self t start w) as (r & w1 & E & _ & _ & _ & _ & C).
    assert (D := await_nonneg (login_patterns self) (replies w (waits w))
                   (t - (clock w - start))).
    assert (D1 : snd (await (login_patterns self) (replies w (waits w))
                        (t - (clock w - start))) <= t - (clock w - start))
      by (apply await_within; lra).
    assert (D' := await_nonneg exit_patterns (replies w (S (waits w)))
                    (PhysicalConsole.timeout self)).
    assert (D1' := await_within_whole exit_patterns (replies w (S (waits w)))
                     (PhysicalConsole.timeout self)).
    rewrite (bind_run _ E).
    destruct (Nat.eqb r 0).
    + unfold ret. simpl. rewrite C. split; [lra|right; lra].
    + assert (Hs1 : start <= clock w1) by (rewrite C; lra).
      destruct (IH w1 Hs1) as (C1 & B1).
      split; [rewrite C in C1; lra|].
      right. destruct B1 as [->|B1]; [rewrite C; lra|exact B1].
  - unfold ret. simpl. split; [apply Qle_refl|auto].
Qed.

Lemma wait_for_login_for_time fuel self t :
  forall attempts w,
    let w' := snd (PhysicalConsole._wait_for_login_for fuel self t attempts w) in
    clock w <= clock w'
    /\ clock w' - clock w
       <= inject_Z (Z.of_nat attempts)
          * (whole t + whole (patience (PhysicalConsole.timeout self))).
Proof.
  set (T := whole (patience (PhysicalConsole.timeout self))).
  assert (HT : 0 <= T) by apply whole_nonneg.
  assert (Ht : 0 <= whole t) by apply whole_nonneg.
  assert (Ht' := le_whole t).
  induction attempts as [|n IH]; intros w w'; subst w'.
  { cbn [PhysicalConsole._wait_for_login_for]. unfold raise. cbn [fst snd].
    change (inject_Z (Z.of_nat 0)) with 0. split; lra. }
  assert (X : inject_Z (Z.of_nat (S n)) * (whole t + T)
              == inject_Z (Z.of_nat n) * (whole t + T) + (whole t + T)).
  { rewrite inject_nat_succ. ring. }
  assert (N : 0 <= inject_Z (Z.of_nat n) * (whole t + T)).
  { apply Qmult_le_0_compat; [apply inject_nat_nonneg|lra]. }
  rewrite X. cbn [PhysicalConsole._wait_for_login_for].
  rewrite (bind_run _ (time_run _)).
  destruct (wait_for_login_while_time fuel self t (clock w) w (Qle_refl _))
    as (C1 & B1). fold T in B1.
  destruct (PhysicalConsole._wait_for_login_while fuel self t (clock w) w)
    as [[[|]|e|] w1] eqn:E1; cbn [fst snd] in C1, B1.
  - rewrite (bind_run _ E1). unfold ret. cbn [fst snd].
    split; [exact C1|]. destruct B1 as [->|B1]; lra.
  - rewrite (bind_run _ E1). destruct (IH w1) as (C2 & B2). split; [lra|].
    destruct B1 as [->|B1]; lra.
  - rewrite (bind_raise _ E1). cbn [fst snd].
    split; [exact C1|]. destruct B1 as [->|B1]; lra.
  - unfold bind. rewrite E1. cbn [fst snd].
    split; [exact C1|]. destruct B1 as [->|B1]; lra.
Qed.

(** X4: however it ends, [_wait_for_login] is over within its number of
    attempts times the sum of its timeout and the timeout of an exit wait,
    which is the console's timeout, or the child's own 30 seconds when the
    console's timeout is -1: each window starts its last session before
    the timeout is up, the wait of that session ends with the timeout, and
    its exit adds one exit wait. *)
Theorem wait_for_login_bounded_time :
  forall fuel self timeout attempts w,
    let t := or_num timeout (PhysicalConsole.timeout self) in
    let w' := snd (PhysicalConsole._wait_for_login fuel self timeout attempts w) in
    clock w <= clock w'
    /\ clock w' - clock w
       <= inject_Z (Z.of_nat attempts)
          * (whole t + whole (patience (PhysicalConsole.timeout self))).
Proof.
  intros. apply wait_for_login_for_time.
Qed.

(** On a console whose timeout is -1, the login wait under a timeout of 300
    lasts 660 seconds when no session ever answers: each of its two windows
    holds one session, whose wait for the prompt takes the 300 seconds and
    whose exit wait the 30 seconds of the child. *)
Lemma wait_for_login_exit_wait_of_the_child :
  let self := PhysicalConsole.__init__ (fun _ => "cephN") no_config "cephN.front.sepia"
                (Some "u") (Some "p") (Some "example.com") None (-1) in
  let w' := snd (PhysicalConsole._wait_for_login 5 self (Some 300) 2
                   (fresh (always Silent))) in
  clock w' = 660
  /\ wait_bounds (events w') = [300; -1; 300; -1]
  /\ spawned self "sol deactivate" (events w') = 2%nat.
Proof.
  repeat split; vm_compute; reflexivity.
Qed.

(** *** A timeout that leaves no time *)

Lemma wait_for_login_while_closed fuel self t start w :
  t <= clock w - start ->
  PhysicalConsole._wait_for_login_while (S fuel) self t start w = (Ret false, w).
Proof.
  intros H. cbn [PhysicalConsole._wait_for_login_while].
  rewrite (bind_run _ (time_run _)).
  apply lt_false in H. now rewrite H.
Qed.

Lemma wait_for_login_for_no_time fuel self t :
  t <= 0 ->
  forall attempts w,
    PhysicalConsole._wait_for_login_for (S fuel) self t attempts w
    = (Raise (ConsoleError
                ("Did not get a login prompt from " ++ PhysicalConsole.name self
                 ++ "!")%string), w).
Proof.
  intros Ht. induction attempts as [|n IH]; intros w; [reflexivity|].
  cbn [PhysicalConsole._wait_for_login_for].
  rewrite (bind_run _ (time_run _)).
  assert (H : t <= clock w - clock w) by lra.
  rewrite (bind_run _ (wait_for_login_while_closed fuel self t (clock w) w H)).
  apply IH.
Qed.

(** X5: when the timeout the login wait works with is zero or negative, no
    window is ever open: [_wait_for_login] raises ConsoleError with the
    world untouched, whatever the number of attempts, and [check_status]
    returns False having done nothing but log that error. *)
Theorem login_wait_without_time :
  forall fuel self timeout attempts w,
    or_num timeout (PhysicalConsole.timeout self) <= 0 ->
    let failure :=
      ("Did not get a login prompt from " ++ PhysicalConsole.name self ++ "!")%string in
    PhysicalConsole._wait_for_login (S fuel) self timeout attempts w
    = (Raise (ConsoleError failure), w)
    /\ PhysicalConsole.check_status (S fuel) self timeout w
       = (Ret false,
          record (Log INFO "Failed to get ipmi console status for {s}: {e}"
                    [AStr (PhysicalConsole.shortname self); AStr failure]) w).
Proof.
  intros fuel self timeout attempts w Ht failure.
  assert (E : forall n, PhysicalConsole._wait_for_login (S fuel) self timeout n w
                        = (Raise (ConsoleError failure), w)).
  { intros n. unfold PhysicalConsole._wait_for_login.
    now apply wait_for_login_for_no_time. }
  split; [apply E|].
  unfold PhysicalConsole.check_status, try_except.
  rewrite (bind_raise _ (E _)). reflexivity.
Qed.

Lemma login_wait_without_time_witness :
  let self := PhysicalConsole.__init__ (fun _ => "cephN") no_config "cephN.front.sepia"
                (Some "u") (Some "p") (Some "example.com") None 0 in
  let w := fresh (always (Marker instantly)) in
  or_num (Some 0) (PhysicalConsole.timeout self) <= 0
  /\ PhysicalConsole._wait_for_login 1 self (Some 0) 2 w
     = (Raise (ConsoleError "Did not get a login prompt from cephN.front.sepia!"), w)
  /\ PhysicalConsole.check_status 1 self (Some 0) w
     = (Ret false,
        record (Log INFO "Failed to get ipmi console status for {s}: {e}"
                  [AStr "cephN";
                   AStr "Did not get a login prompt from cephN.front.sepia!"]) w).
Proof.
  intros self w.
  assert (H : or_num (Some 0) (PhysicalConsole.timeout self) <= 0) by discriminate.
  split; [exact H|].
  exact (login_wait_without_time 0 self (Some 0) 2 w H).
Defined.

(** *** How the login wait ends, for any timeout and number of attempts *)

Lemma wait_for_login_for_ends fuel self t :
  forall attempts w,
    match PhysicalConsole._wait_for_login_for fuel self t attempts w with
    | (Ret _, w') =>
        exists evs, events w' = events w ++ evs /\ answered_at_last self t evs
    | (Raise e, w') =>
        e = ConsoleError
              ("Did not get a login prompt from " ++ PhysicalConsole.name self
               ++ "!")%string
        /\ inject_Z (Z.of_nat attempts) * t <= clock w' - clock w
        /\ exists evs, events w' = events w ++ evs /\ unanswered_sessions self t evs
    | (OutOfFuel, _) => True
    end.
Proof.
  induction attempts as [|n IH]; intros w.
  { cbn [PhysicalConsole._wait_for_login_for]. unfold raise.
    split; [reflexivity|]. change (inject_Z (Z.of_nat 0)) with 0. split; [lra|].
    exists []. rewrite app_nil_r. split; [reflexivity|constructor]. }
  cbn [PhysicalConsole._wait_for_login_for]. rewrite (bind_run _ (time_run _)).
  assert (W1 := wait_for_login_while_ends fuel self t (clock w) w (Qle_refl _)).
  destruct (PhysicalConsole._wait_for_login_while fuel self t (clock w) w)
    as [[[|]|e|] w1] eqn:E1.
  - rewrite (bind_run _ E1). unfold ret. apply W1.
  - rewrite (bind_run _ E1). destruct W1 as (C1 & Ct1 & evs1 & T1 & U1).
    specialize (IH w1).
    destruct (PhysicalConsole._wait_for_login_for fuel self t n w1)
      as [[[]|e|] w2].
    + destruct IH as (evs2 & T2 & A2).
      eexists. rewrite T2, T1, <- app_assoc. split; [reflexivity|].
      now apply answered_after_unanswered.
    + destruct IH as (-> & Ct2 & evs2 & T2 & U2).
      split; [reflexivity|]. split.
      * assert (X : inject_Z (Z.of_nat (S n)) * t == inject_Z (Z.of_nat n) * t + t).
        { rewrite inject_nat_succ. ring. }
        rewrite X. lra.
      * eexists. rewrite T2, T1, <- app_assoc. split; [reflexivity|].
        now apply unanswered_sessions_app.
    + exact I.
  - destruct W1.
  - unfold bind. rewrite E1. exact I.
Qed.

(** X6: [check_status] never raises.  It returns True exactly when the
    login wait returned, the last session being the one that saw the login
    prompt; it returns False when no session saw the prompt, after logging
    the ConsoleError of the login wait, and not before two of its timeouts
    have passed. *)
Theorem check_status_is_a_boolean :
  forall fuel self timeout w,
    let t := or_num timeout (PhysicalConsole.timeout self) in
    let failure :=
      ("Did not get a login prompt from " ++ PhysicalConsole.name self ++ "!")%string in
    match PhysicalConsole.check_status fuel self timeout w with
    | (Ret true, w') =>
        exists evs, events w' = events w ++ evs /\ answered_at_last self t evs
    | (Ret false, w') =>
        2 * t <= clock w' - clock w
        /\ exists evs,
            events w'
            = events w ++ evs
                ++ [Log INFO "Failed to get ipmi console status for {s}: {e}"
                      [AStr (PhysicalConsole.shortname self); AStr failure]]
            /\ unanswered_sessions self t evs
    | (Raise _, _) => False
    | (OutOfFuel, _) => True
    end.
Proof.
  intros fuel self timeout w t failure.
  unfold PhysicalConsole.check_status, try_except, PhysicalConsole._wait_for_login.
  fold t.
  assert (W := wait_for_login_for_ends fuel self t PhysicalConsole.default_attempts w).
  unfold bind at 1.
  destruct (PhysicalConsole._wait_for_login_for fuel self t
              PhysicalConsole.default_attempts w) as [[[]|e|] w'].
  - unfold ret. exact W.
  - destruct W as (-> & Ct & evs & T & U). unfold Exception.
    rewrite (bind_run _ (log_run _ _ _ _)). unfold ret.
    autorewrite with world. split; [exact Ct|].
    exists evs. rewrite events_record, T, <- app_assoc. auto.
  - exact I.
Qed.

(** ** The transitions: the command loop *)

Lemma closed_attempts_snoc self cmd marker evs child :
  closed_attempts self cmd marker evs ->
  closed_attempts self cmd marker
    (evs ++ command_attempt self cmd marker child EndOfStream).
Proof.
  induction 1 as [|c rest _ IH].
  - rewrite <- (app_nil_r (command_attempt _ _ _ _ _)). repeat constructor.
  - rewrite <- app_assoc. now constructor.
Qed.

Lemma command_while_shape fuel self start cmd marker :
  forall w,
    start <= clock w ->
    let T := PhysicalConsole.timeout self in
    let run := PhysicalConsole.command_while fuel self start cmd marker w in
    (snd run = w \/ (clock w <= clock (snd run) /\ clock (snd run) - start < 2 * T))
    /\ exists evs,
        events (snd run) = events w ++ evs
        /\ match fst run with
           | Ret _ =>
               (closed_attempts self cmd marker evs /\ T <= clock (snd run) - start)
               \/ exists before child,
                   evs = before
                         ++ command_attempt self cmd marker child (MatchedPattern 0)
                   /\ closed_attempts self cmd marker before
           | Raise e =>
               e = PexpectTIMEOUT
               /\ exists before child,
                   evs = before ++ command_attempt self cmd marker child Timeout
                   /\ closed_attempts self cmd marker before
           | OutOfFuel => closed_attempts self cmd marker evs
           end.
Proof.
  induction fuel as [|fuel IH]; intros w Hs T run; subst run.
  { simpl. split; [auto|]. exists []. rewrite app_nil_r. split; [reflexivity|constructor]. }
  cbn [PhysicalConsole.command_while]. rewrite (bind_run _ (time_run _)). fold T.
  destruct (lt (clock w - start) T) eqn:L.
  - apply lt_true in L.
    rewrite (bind_run _ (pexpect_spawn_run _ _ _)).
    assert (E := expect_marker_or_eof (children w) marker T (started self cmd w)).
    cbv zeta in E. autorewrite with world in E.
    set (patterns := [Str marker; EOF]) in *.
    assert (D := await_nonneg patterns (replies w (waits w)) T).
    assert (D1 : snd (await patterns (replies w (waits w)) T) <= T)
      by (apply await_within; lra).
    set (o := fst (await patterns (replies w (waits w)) T)) in *.
    set (d := snd (await patterns (replies w (waits w)) T)) in *.
    remember (heard (children w) patterns T o d (started self cmd w)) as w2 eqn:Hw2.
    assert (C2 : clock w2 = clock w + d) by (subst w2; now autorewrite with world).
    assert (T2 : events w2 = events w ++ command_attempt self cmd marker (children w) o).
    { subst w2. rewrite events_heard, events_started. unfold command_attempt.
      now rewrite <- !app_assoc. }
    clear Hw2.
    assert (O : (exists i, o = MatchedPattern i /\ i = 0%nat)
                \/ o = Timeout \/ o = EndOfStream).
    { subst o. destruct (await_cases patterns (replies w (waits w)) T)
        as [(i & dl & _ & P & _ & ->)|[(dl & _ & _ & ->)| ->]]; simpl; auto.
      inversion P. eauto. }
    destruct O as [(i & Eo & ->)|[Eo|Eo]]; rewrite Eo in E, T2.
    + rewrite (bind_run _ E). cbn [Nat.eqb]. unfold ret. cbn [fst snd].
      split; [right; rewrite C2; split; lra|].
      eexists. split; [exact T2|]. right.
      exists [], (children w). split; [reflexivity|constructor].
    + rewrite (bind_raise _ E). cbn [fst snd].
      split; [right; rewrite C2; split; lra|].
      eexists. split; [exact T2|]. split; [reflexivity|].
      exists [], (children w). split; [reflexivity|constructor].
    + rewrite (bind_run _ E). cbn [Nat.eqb].
      assert (Hs2 : start <= clock w2) by (rewrite C2; lra).
      destruct (IH w2 Hs2) as (C' & evs & T' & R'). fold T in C', R'.
      split.
      * right. destruct C' as [->|[C' C'']]; rewrite ?C2; [split; lra|].
        rewrite C2 in C'. split; lra.
      * exists (command_attempt self cmd marker (children w) EndOfStream ++ evs).
        split; [rewrite T', T2, <- app_assoc; reflexivity|].
        destruct (fst (PhysicalConsole.command_while fuel self start cmd marker w2))
          as [[]|e|].
        -- destruct R' as [(Cl & Ht)|(before & child & -> & Cl)].
           ++ left. split; [now constructor|exact Ht].
           ++ right. exists (command_attempt self cmd marker (children w) EndOfStream
                             ++ before), child.
              split; [now rewrite <- app_assoc|now constructor].
        -- destruct R' as (-> & before & child & -> & Cl). split; [reflexivity|].
           exists (command_attempt self cmd marker (children w) EndOfStream ++ before),
             child.
           split; [now rewrite <- app_assoc|now constructor].
        -- now constructor.
  - apply lt_false in L. unfold ret. cbn [fst snd]. split; [auto|].
    exists []. rewrite app_nil_r. split; [reflexivity|].
    left. split; [constructor|exact L].
Qed.

(** X7: the command loop of [hard_reset], [power_on] and [power_off] sends
    its command again only after a wait that ended with the stream closed.
    It ends on the first acknowledgment, or once the console's timeout has
    passed since it began; a wait that runs into the timeout is raised as
    pexpect's TIMEOUT and ends it too, and nothing is sent after any of
    these. *)
Theorem command_loop_retries_on_eof_only :
  forall fuel self cmd marker w,
    let T := PhysicalConsole.timeout self in
    match PhysicalConsole.command_while fuel self (clock w) cmd marker w with
    | (Ret _, w') =>
        exists evs,
          events w' = events w ++ evs
          /\ ((closed_attempts self cmd marker evs /\ T <= clock w' - clock w)
              \/ exists before child,
                  evs = before
                        ++ command_attempt self cmd marker child (MatchedPattern 0)
                  /\ closed_attempts self cmd marker before)
    | (Raise e, w') =>
        e = PexpectTIMEOUT
        /\ exists before child,
            events w'
            = events w ++ before ++ command_attempt self cmd marker child Timeout
            /\ closed_attempts self cmd marker before
    | (OutOfFuel, _) => True
    end.
Proof.
  intros fuel self cmd marker w T.
  assert (S := command_while_shape fuel self (clock w) cmd marker w (Qle_refl _)).
  cbv zeta in S. fold T in S.
  destruct (PhysicalConsole.command_while fuel self (clock w) cmd marker w)
    as [[[]|e|] w']; cbn [fst snd] in S; destruct S as (_ & evs & Tr & R).
  - exists evs. auto.
  - destruct R as (-> & before & child & -> & Cl). split; [reflexivity|].
    exists before, child. auto.
  - exact I.
Qed.

(** ** The transitions: how long they can last *)

Lemma within_le {A : Type} (b b' : Q) (m : M A) :
  within b m -> b <= b' -> within b' m.
Proof.
  intros H Hb w. destruct (H w). split; lra.
Qed.

Lemma within_ret {A : Type} (a : A) : within 0 (ret a : M A).
Proof.
  intros w. simpl. split; lra.
Qed.

Lemma within_raise {A : Type} (e : Exc) : within 0 (raise e : M A).
Proof.
  intros w. simpl. split; lra.
Qed.

Lemma within_time : within 0 time.
Proof.
  intros w. simpl. split; lra.
Qed.

Lemma within_log level template args : within 0 (log level template args).
Proof.
  intros w. rewrite log_run. cbn [snd]. autorewrite with world. split; lra.
Qed.

Lemma within_send child s : within 0 (send child s).
Proof.
  intros w. rewrite send_run. cbn [snd]. autorewrite with world. split; lra.
Qed.

Lemma within_pexpect_spawn self cmd : within 0 (PhysicalConsole._pexpect_spawn self cmd).
Proof.
  intros w. rewrite pexpect_spawn_run. cbn [snd]. autorewrite with world. split; lra.
Qed.

Lemma expect_world child patterns t w :
  snd (expect child patterns t w)
  = heard child patterns t (fst (await patterns (replies w (waits w)) t))
      (snd (await patterns (replies w (waits w)) t)) w.
Proof.
  unfold expect.
  destruct (await patterns (replies w (waits w)) t) as [[i| |] d]; simpl;
    try reflexivity.
  - now destruct (position is_TIMEOUT patterns).
  - now destruct (position is_EOF patterns).
Qed.

Lemma within_expect child patterns t :
  within (whole (patience t)) (expect child patterns t).
Proof.
  intros w. rewrite expect_world. autorewrite with world.
  assert (D := await_nonneg patterns (replies w (waits w)) t).
  assert (D' := await_within_whole patterns (replies w (waits w)) t).
  split; lra.
Qed.

Lemma within_sleep secs : within (whole secs) (sleep secs).
Proof.
  intros w. unfold sleep. destruct (lt secs 0) eqn:L.
  - assert (H := whole_nonneg secs). unfold raise. cbn [snd]. split; lra.
  - apply lt_false in L. rewrite (whole_of_nonneg _ L). cbn [snd].
    autorewrite with world. split; lra.
Qed.

Lemma within_bind {A B : Type} (b1 b2 : Q) (m : M A) (k : A -> M B) :
  within b1 m -> (forall a, within b2 (k a)) -> 0 <= b2 ->
  within (b1 + b2) (bind m k).
Proof.
  intros Hm Hk H2 w. unfold bind. destruct (Hm w) as (C1 & B1).
  destruct (m w) as [[a|e|] w1]; cbn [snd] in *.
  - destruct (Hk a w1) as (C2 & B2). split; lra.
  - split; lra.
  - split; lra.
Qed.

Lemma within_try_except {A : Type} (b1 b2 : Q) handles (m : M A) (h : Exc -> M A) :
  within b1 m -> (forall e, within b2 (h e)) -> 0 <= b2 ->
  within (b1 + b2) (try_except handles m h).
Proof.
  intros Hm Hh H2 w. unfold try_except. destruct (Hm w) as (C1 & B1).
  destruct (m w) as [[a|e|] w1]; cbn [snd] in *.
  - split; lra.
  - destruct (handles e); cbn [snd]; [|split; lra].
    destruct (Hh e w1) as (C2 & B2). split; lra.
  - split; lra.
Qed.

Lemma within_check_power fuel self state timeout :
  within (whole (or_num timeout (PhysicalConsole.timeout self)))
    (PhysicalConsole.check_power fuel self state timeout).
Proof.
  intros w. unfold PhysicalConsole.check_power.
  set (limit := or_num timeout (PhysicalConsole.timeout self)).
  rewrite (bind_run _ (time_run _)).
  assert (S := check_power_while_shape self state limit fuel 1 1 (clock w) w).
  cbv zeta in S. destruct S as (C & _); try lra.
  assert (H := whole_nonneg limit). assert (H' := le_whole limit).
  destruct C as [->|[C C']]; split; lra.
Qed.

Lemma within_wait_for_login fuel self timeout attempts :
  within
    (inject_Z (Z.of_nat attempts)
     * (whole (or_num timeout (PhysicalConsole.timeout self))
        + whole (patience (PhysicalConsole.timeout self))))
    (PhysicalConsole._wait_for_login fuel self timeout attempts).
Proof.
  intros w. apply wait_for_login_for_time.
Qed.

Lemma wait_for_login_for_untouched fuel self t attempts w :
  t <= 0 -> snd (PhysicalConsole._wait_for_login_for fuel self t attempts w) = w.
Proof.
  intros Ht. destruct fuel as [|fuel].
  - destruct attempts; reflexivity.
  - now rewrite wait_for_login_for_no_time.
Qed.

(** The login wait under the console's own timeout: a timeout of -1 opens
    no window, so no exit wait falls back on the child's own timeout. *)
Lemma within_wait_for_login_own fuel self attempts :
  within (inject_Z (Z.of_nat attempts) * (2 * whole (PhysicalConsole.timeout self)))
    (PhysicalConsole._wait_for_login fuel self None attempts).
Proof.
  set (T := PhysicalConsole.timeout self).
  assert (N : 0 <= inject_Z (Z.of_nat attempts)) by apply inject_nat_nonneg.
  assert (HT : 0 <= whole T) by apply whole_nonneg.
  destruct (Qlt_le_dec 0 T) as [H|H].
  - eapply within_le; [apply within_wait_for_login|].
    simpl or_num. fold T. rewrite (patience_of_nonneg T) by lra.
    assert (X : inject_Z (Z.of_nat attempts) * (2 * whole T)
                == inject_Z (Z.of_nat attempts) * (whole T + whole T)) by ring.
    rewrite X. apply Qle_refl.
  - intros w. unfold PhysicalConsole._wait_for_login. simpl or_num. fold T.
    rewrite (wait_for_login_for_untouched fuel self T attempts w H).
    assert (X : 0 <= inject_Z (Z.of_nat attempts) * (2 * whole T))
      by (apply Qmult_le_0_compat; lra).
    split; lra.
Qed.

Lemma within_command_then {B : Type} fuel self cmd marker (k : M B) (b : Q) :
  within b k -> 0 <= b ->
  within (2 * whole (PhysicalConsole.timeout self) + b)
    (start <- time ;;
     PhysicalConsole.command_while fuel self start cmd marker ;;; k).
Proof.
  intros Hk Hb w. rewrite (bind_run _ (time_run _)).
  assert (S := command_while_shape fuel self (clock w) cmd marker w (Qle_refl _)).
  cbv zeta in S. destruct S as (C & _).
  assert (H := whole_nonneg (PhysicalConsole.timeout self)).
  assert (H' := le_whole (PhysicalConsole.timeout self)).
  unfold bind.
  destruct (PhysicalConsole.command_while fuel self (clock w) cmd marker w)
    as [[[]|e|] w1]; cbn [snd] in *.
  - destruct (Hk w1) as (C2 & B2). destruct C as [->|[C C']]; split; lra.
  - destruct C as [->|[C C']]; split; lra.
  - destruct C as [->|[C C']]; split; lra.
Qed.

(** X8: however they end, and whatever the sessions answer, the public
    operations of the physical console move the clock forward by a bounded
    amount.  With [T] the console's timeout when it is positive and 0
    otherwise, and [P] the longest that a wait under the console's timeout
    lasts, which is [T] unless the timeout is -1, where the wait falls back
    on the child's own 30 seconds: [power_on] by 3 T at most, [power_off]
    by 2 T + 60, [hard_reset] by 6 T, [power_cycle] by 3 P + 600,
    [power_off_for_interval] by 2 P + 4 T plus the interval, and
    [check_status] by twice the sum of its timeout and P. *)
Theorem physical_operations_bounded_time :
  forall fuel self,
    let T := whole (PhysicalConsole.timeout self) in
    let P := whole (patience (PhysicalConsole.timeout self)) in
    within (3 * T) (PhysicalConsole.power_on fuel self)
    /\ within (2 * T + 60) (PhysicalConsole.power_off fuel self)
    /\ within (6 * T) (PhysicalConsole.hard_reset fuel self)
    /\ within (3 * P + 600) (PhysicalConsole.power_cycle fuel self)
    /\ (forall interval,
           within (2 * P + 4 * T + whole interval)
             (PhysicalConsole.power_off_for_interval fuel self interval))
    /\ (forall timeout,
           within (2 * (whole (or_num timeout (PhysicalConsole.timeout self)) + P))
             (PhysicalConsole.check_status fuel self timeout)).
Proof.
  intros fuel self T P.
  assert (HT : 0 <= T) by apply whole_nonneg.
  assert (HP : 0 <= P) by apply whole_nonneg.
  assert (W60 : whole (or_num (Some 60) (PhysicalConsole.timeout self)) = 60)
    by reflexivity.
  assert (W300 : whole (or_num (Some 300) (PhysicalConsole.timeout self)) = 300)
    by reflexivity.
  assert (N2 : inject_Z (Z.of_nat PhysicalConsole.default_attempts) = 2) by reflexivity.
  split; [|split; [|split; [|split; [|split]]]].
  - unfold PhysicalConsole.power_on.
    eapply within_le.
    + eapply within_bind; [apply within_log|intros _|].
      * eapply within_command_then.
        -- eapply within_bind; [apply within_check_power|intros ok|].
           ++ eapply within_bind; [|intros _; apply within_log|apply Qle_refl].
              destruct (negb ok); [apply within_log|apply within_ret].
           ++ lra.
        -- simpl or_num. fold T. lra.
      * simpl or_num. fold T. lra.
    + simpl or_num. fold T. lra.
  - unfold PhysicalConsole.power_off.
    eapply within_le.
    + eapply within_bind; [apply within_log|intros _|].
      * eapply within_command_then.
        -- eapply within_bind; [apply within_check_power|intros ok|].
           ++ eapply within_bind; [|intros _; apply within_log|apply Qle_refl].
              destruct (negb ok); [apply within_log|apply within_ret].
           ++ lra.
        -- rewrite W60. lra.
      * rewrite W60. fold T. lra.
    + rewrite W60. fold T. lra.
  - unfold PhysicalConsole.hard_reset.
    eapply within_le.
    + eapply within_bind; [apply within_log|intros _|].
      * eapply within_command_then.
        -- eapply within_bind;
             [apply within_wait_for_login_own|intros _; apply within_log
             |apply Qle_refl].
        -- rewrite N2. fold T. lra.
      * rewrite N2. fold T. lra.
    + rewrite N2. fold T. lra.
  - unfold PhysicalConsole.power_cycle.
    eapply within_le.
    + eapply within_bind; [apply within_log|intros _|].
      * eapply within_bind; [apply within_pexpect_spawn|intros child|].
        -- eapply within_bind; [apply within_expect|intros _|].
           ++ eapply within_bind;
                [apply within_wait_for_login|intros _; apply within_log|apply Qle_refl].
           ++ rewrite N2, W300. fold P. lra.
        -- rewrite N2, W300. fold P. lra.
      * rewrite N2, W300. fold P. lra.
    + rewrite N2, W300. fold P. lra.
  - intros interval. assert (HI := whole_nonneg interval).
    unfold PhysicalConsole.power_off_for_interval.
    eapply within_le.
    + eapply within_bind; [apply within_log|intros _|].
      * eapply within_bind; [apply within_pexpect_spawn|intros child|].
        -- eapply within_bind; [apply within_expect|intros _|].
           ++ eapply within_bind; [apply within_sleep|intros _|].
              ** eapply within_bind; [apply within_pexpect_spawn|intros child'|].
                 --- eapply within_bind; [apply within_expect|intros _|].
                     +++ eapply within_bind;
                           [apply within_wait_for_login_own|intros _; apply within_log
                           |apply Qle_refl].
                     +++ rewrite N2. fold T. lra.
                 --- rewrite N2. fold T P. lra.
              ** rewrite N2. fold T P. lra.
           ++ rewrite N2. fold T P. lra.
        -- rewrite N2. fold T P. lra.
      * rewrite N2. fold T P. lra.
    + rewrite N2. fold T P. lra.
  - intros timeout.
    set (t := whole (or_num timeout (PhysicalConsole.timeout self))).
    assert (Ht : 0 <= t) by apply whole_nonneg.
    unfold PhysicalConsole.check_status.
    eapply within_le.
    + eapply within_try_except.
      * eapply within_bind;
          [apply within_wait_for_login|intros _; apply within_ret|apply Qle_refl].
      * intros e. eapply within_bind;
          [apply within_log|intros _; apply within_ret|apply Qle_refl].
      * lra.
    + rewrite N2. fold t. fold P. lra.
Qed.

(** On a console whose timeout is -1, a power cycle that is acknowledged at
    once on a machine that then never answers ends after 660 seconds, in
    the ConsoleError of its login wait; when the acknowledgment does not
    come either, it ends after the 30 seconds of the child, in pexpect's
    TIMEOUT. *)
Lemma power_cycle_waits_of_the_child :
  let self := PhysicalConsole.__init__ (fun _ => "cephN") no_config "cephN.front.sepia"
                (Some "u") (Some "p") (Some "example.com") None (-1) in
  let acknowledged := fresh (fun n => match n with O => Marker instantly | _ => Silent end) in
  let silent := fresh (always Silent) in
  fst (PhysicalConsole.power_cycle 5 self acknowledged)
  = Raise (ConsoleError "Did not get a login prompt from cephN.front.sepia!")
  /\ clock (snd (PhysicalConsole.power_cycle 5 self acknowledged)) = 660
  /\ fst (PhysicalConsole.power_cycle 5 self silent) = Raise PexpectTIMEOUT
  /\ clock (snd (PhysicalConsole.power_cycle 5 self silent)) = 30.
Proof.
  repeat split; vm_compute; reflexivity.
Qed.

(** ** The transitions on a console without time *)

Lemma command_while_closed fuel self start cmd marker w :
  PhysicalConsole.timeout self <= clock w - start ->
  PhysicalConsole.command_while (S fuel) self start cmd marker w = (Ret tt, w).
Proof.
  intros H. cbn [PhysicalConsole.command_while].
  rewrite (bind_run _ (time_run _)). apply lt_false in H. now rewrite H.
Qed.

(** X9: on a console whose timeout is zero or negative the command loop
    never runs.  [power_on] sends nothing at all: it logs that it failed to
    power on and that it completed, and returns.  [hard_reset] sends
    nothing either and raises the ConsoleError of a login wait that had no
    time. *)
Theorem transitions_without_time :
  forall fuel self w,
    PhysicalConsole.timeout self <= 0 ->
    let s := PhysicalConsole.shortname self in
    PhysicalConsole.power_on (S fuel) self w
    = (Ret tt,
       record (Log INFO "Power on for {s} completed" [AStr s])
         (record (Log ERROR "Failed to power on {s}" [AStr s])
            (record (Log INFO "Power on {s}" [AStr s]) w)))
    /\ PhysicalConsole.hard_reset (S fuel) self w
       = (Raise (ConsoleError
                   ("Did not get a login prompt from " ++ PhysicalConsole.name self
                    ++ "!")%string),
          record (Log INFO "Performing hard reset of {s}" [AStr s]) w).
Proof.
  intros fuel self w HT s. split.
  - unfold PhysicalConsole.power_on.
    rewrite (bind_run _ (log_run _ _ _ _)). rewrite (bind_run _ (time_run _)).
    erewrite (bind_run _); cycle 1.
    { apply command_while_closed. autorewrite with world. lra. }
    erewrite (bind_run _); cycle 1.
    { unfold PhysicalConsole.check_power. simpl or_num.
      rewrite (bind_run _ (time_run _)). cbn [PhysicalConsole.check_power_while].
      assert (L : lt 1 (PhysicalConsole.timeout self) = false) by (apply lt_false; lra).
      rewrite L. reflexivity. }
    reflexivity.
  - unfold PhysicalConsole.hard_reset.
    rewrite (bind_run _ (log_run _ _ _ _)). rewrite (bind_run _ (time_run _)).
    erewrite (bind_run _); cycle 1.
    { apply command_while_closed. autorewrite with world. lra. }
    erewrite (bind_raise _); [reflexivity|].
    unfold PhysicalConsole._wait_for_login. simpl or_num.
    now apply wait_for_login_for_no_time.
Qed.

Lemma transitions_without_time_witness :
  let self := PhysicalConsole.__init__ (fun _ => "cephN") no_config "cephN.front.sepia"
                (Some "u") (Some "p") (Some "example.com") None 0 in
  let w := fresh (always (Marker instantly)) in
  PhysicalConsole.timeout self <= 0
  /\ PhysicalConsole.power_on 1 self w
     = (Ret tt,
        record (Log INFO "Power on for {s} completed" [AStr "cephN"])
          (record (Log ERROR "Failed to power on {s}" [AStr "cephN"])
             (record (Log INFO "Power on {s}" [AStr "cephN"]) w)))
  /\ PhysicalConsole.hard_reset 1 self w
     = (Raise (ConsoleError "Did not get a login prompt from cephN.front.sepia!"),
        record (Log INFO "Performing hard reset of {s}" [AStr "cephN"]) w).
Proof.
  intros self w.
  assert (H : PhysicalConsole.timeout self <= 0) by discriminate.
  split; [exact H|].
  exact (transitions_without_time 0 self w H).
Defined.

(** ** Spawning without credentials *)

(** X10: missing credentials do not keep [_pexpect_spawn] from handing
    its command to [pexpect.spawn].  For a console built by [__init__] the
    error about the credentials is logged first, and only then, when one of
    the three resolved credentials is None; in either case the one thing
    that follows is the call of [pexpect.spawn] with the command line of
    [_build_command], which shows the word None in the place of a missing
    credential. *)
Theorem spawn_with_or_without_credentials :
  forall getShortName config name user password domain logfile timeout cmd w,
    let self :=
      PhysicalConsole.__init__ getShortName config name user password domain
        logfile timeout in
    let u := or_str user (ipmi_user config) in
    let p := or_str password (ipmi_password config) in
    let d := or_str domain (ipmi_domain config) in
    let missing := negb (is_not_None u && is_not_None p && is_not_None d) in
    events (snd (PhysicalConsole._pexpect_spawn self cmd w))
    = events w
      ++ (if missing
          then [Log ERROR
                  "Must set ipmi_user, ipmi_password, and ipmi_domain in .teuthology.yaml"
                  []]
          else [])
      ++ [Spawn (children w)
            ("ipmitool -H " ++ getShortName name ++ "." ++ fmt d
             ++ " -I lanplus -U " ++ fmt u ++ " -P " ++ fmt p ++ " " ++ cmd)%string].
Proof.
  intros getShortName config name user password domain logfile timeout cmd w
    self u p d missing.
  rewrite pexpect_spawn_run. cbn [snd].
  rewrite events_started. f_equal. f_equal.
  unfold credentials_warning. subst self missing u p d.
  unfold PhysicalConsole.__init__. cbn [PhysicalConsole.has_ipmi_credentials].
  unfold all. cbn [map forallb]. rewrite andb_true_r, andb_assoc.
  now destruct (is_not_None (or_str user (ipmi_user config))
                && is_not_None (or_str password (ipmi_password config))
                && is_not_None (or_str domain (ipmi_domain config))).
Qed.

(** ** The virtual console: the methods that read *)

(** X11: on a console with a bound domain [check_status] asks libvirt for
    the domain's info once and returns True exactly when the state it
    reports is VIR_DOMAIN_RUNNING; it changes no domain and ignores its
    timeout.  The error of libvirt is passed on, and a console without a
    domain raises AttributeError. *)
Theorem virtual_check_status_reads_state :
  forall shortname connection host id timeout h,
    VirtualConsole.check_status
      {| VirtualConsole.shortname := shortname;
         VirtualConsole.connection := connection;
         VirtualConsole.vm_domain := Some (VDomain host id) |} timeout h
    = (match domain_of host id h with
       | Some d => Ret (Z.eqb (dom_state d) VIR_DOMAIN_RUNNING)
       | None => Raise LibvirtError
       end,
       {| hosts := hosts h; calls := calls h ++ [CInfo host id] |})
    /\ VirtualConsole.check_status
         {| VirtualConsole.shortname := shortname;
            VirtualConsole.connection := connection;
            VirtualConsole.vm_domain := None |} timeout h
       = (Raise (AttributeError "vm_domain"), h).
Proof.
  intros. split; [|reflexivity].
  unfold VirtualConsole.check_status, VirtualConsole.attribute, bind, lift, ret.
  simpl. unfold bind, called, domain_of. simpl.
  destruct (assoc host (hosts h)) as [ds|]; [|reflexivity].
  destruct (find_domain id ds); reflexivity.
Qed.

Lemma called_run c h :
  called c h = (Ret tt, {| hosts := hosts h; calls := calls h ++ [c] |}).
Proof. reflexivity. Qed.

Lemma attribute_set {A : Type} name (v : A) h :
  VirtualConsole.attribute name (Some v) h = (Ret v, h).
Proof. reflexivity. Qed.

(** X12: on a console with a bound domain [power_off_for_interval] logs
    that it powers off, calls [info()] and then fails on the list that
    [info()] returned: it raises AttributeError (or the libvirt error of
    [info()]) before it sleeps; it never sleeps, never calls [destroy()] or
    [create()], and never logs that it completed. *)
Theorem virtual_power_off_for_interval_fails_first :
  forall s connection host id interval h,
    VirtualConsole.power_off_for_interval
      {| VirtualConsole.shortname := Some s;
         VirtualConsole.connection := connection;
         VirtualConsole.vm_domain := Some (VDomain host id) |} interval h
    = (Raise (match domain_of host id h with
              | Some _ => AttributeError "destroy"
              | None => LibvirtError
              end),
       {| hosts := hosts h;
          calls := calls h
                   ++ [CLog "Power off {s} for {i} seconds" [AStr s; ANum interval];
                       CInfo host id] |}).
Proof.
  intros. unfold VirtualConsole.power_off_for_interval.
  cbn [VirtualConsole.shortname].
  rewrite (bind_run _ (attribute_set _ _ _)).
  rewrite (bind_run _ (called_run _ _)).
  rewrite (bind_raise _ (info_then_bound _ _ _ _ _ _)).
  unfold domain_of. simpl. now rewrite <- app_assoc.
Qed.

(** ** The virtual console: construction *)

(** X13: what [__init__] does with a status record that does not lead to a
    hypervisor.  Without libvirt it raises RuntimeError before it looks
    anything up.  A status that is None escapes as AttributeError.  When
    is_vm is true, a missing vm_host key or a vm_host without a name escape
    as KeyError and a name that is not a string as AttributeError; only a
    vm_host that cannot be subscripted with a key (None, a string, a list)
    is tolerated, and leaves a console without a connection and a domain. *)
Theorem virtual_constructor_errors :
  (forall getShortName get_status name h,
      VirtualConsole.__init__ false getShortName get_status name h
      = (Raise (RuntimeError "libvirt not found"), h))
  /\ (forall getShortName name h,
         VirtualConsole.__init__ true getShortName (fun _ => VNone) name h
         = (Raise (AttributeError "get"), h))
  /\ (forall getShortName name items v h,
         assoc "is_vm" items = Some v ->
         truthy v = true ->
         let run :=
           VirtualConsole.__init__ true getShortName (fun _ => VDict items) name h in
         match assoc "vm_host" items with
         | None => run = (Raise (KeyError "vm_host"), h)
         | Some (VDict hitems) =>
             match assoc "name" hitems with
             | None => run = (Raise (KeyError "name"), h)
             | Some (VStr _) => True
             | Some _ => run = (Raise (AttributeError "split"), h)
             end
         | Some _ => run = (Ret (inert (getShortName name)), h)
         end).
Proof.
  split; [reflexivity|]. split; [reflexivity|].
  intros getShortName name items v h Hvm Hv run. subst run.
  unfold VirtualConsole.__init__, try_except, bind, lift, ret. simpl.
  rewrite Hvm, Hv.
  destruct (assoc "vm_host" items) as [vm_host|]; [|reflexivity].
  destruct vm_host as [| | | |xs|hitems| | |]; try reflexivity.
  simpl. destruct (assoc "name" hitems) as [host_name|]; [|reflexivity].
  destruct host_name; first [reflexivity | exact I].
Qed.

Lemma virtual_constructor_errors_witness :
  let items := [("is_vm", VBool true); ("vm_host", VNone)] in
  assoc "is_vm" items = Some (VBool true)
  /\ truthy (VBool true) = true
  /\ forall getShortName name h,
      VirtualConsole.__init__ true getShortName (fun _ => VDict items) name h
      = (Ret (inert (getShortName name)), h).
Proof.
  intros items. split; [reflexivity|]. split; [reflexivity|].
  intros getShortName name h.
  exact (proj2 (proj2 virtual_constructor_errors) getShortName name items
           (VBool true) h eq_refl eq_refl).
Defined.

(** *** The path to a hypervisor *)

Lemma split_head host rest :
  dotless host = true ->
  rest = EmptyString \/ (exists r, rest = String (Ascii.ascii_of_nat 46) r) ->
  exists pieces, split (Ascii.ascii_of_nat 46) (host ++ rest)%string = host :: pieces.
Proof.
  intros Hd Hr. induction host as [|c host IH].
  - destruct Hr as [->|(r & ->)].
    + exists []. reflexivity.
    + exists (split (Ascii.ascii_of_nat 46) r). simpl. reflexivity.
  - cbn [dotless] in Hd. apply andb_true_iff in Hd. destruct Hd as (Hc & Hd).
    apply negb_true_iff in Hc. destruct (IH Hd) as (pieces & E).
    exists pieces. cbn [append split]. rewrite Hc, E. reflexivity.
Qed.

Lemma listed_found ds id :
  In id (listed ds) -> exists d, find_domain id ds = Some d.
Proof.
  unfold listed, find_domain. intros Hin.
  apply in_map_iff in Hin. destruct Hin as (d & Hid & Hd).
  apply filter_In in Hd. destruct Hd as (Hd & _).
  destruct (find (fun d0 => Z.eqb (dom_id d0) id) ds) as [d'|] eqn:F; [eauto|].
  exfalso. apply (find_none _ _ F) in Hd. rewrite Hid, Z.eqb_refl in Hd. discriminate.
Qed.

Lemma getattr_run v attr (h : Hyper) :
  has_method v attr = true ->
  lift (getattr v attr) h = (Ret (VMethod v attr), h).
Proof.
  intros H. unfold lift, getattr. now rewrite H.
Qed.

Lemma call_lookupByID host id ds d h :
  assoc host (hosts h) = Some ds ->
  find_domain id ds = Some d ->
  call (VMethod (VConnect host) "lookupByID") [VInt id] h
  = (Ret (VDomain host id),
     {| hosts := hosts h; calls := calls h ++ [CLookupByID host id] |}).
Proof.
  intros Hh Hd. simpl. unfold bind, called, domain_of. simpl. now rewrite Hh, Hd.
Qed.

Lemma call_name host id ds d h :
  assoc host (hosts h) = Some ds ->
  find_domain id ds = Some d ->
  call (VMethod (VDomain host id) "name") [] h
  = (Ret (VStr (dom_name d)),
     {| hosts := hosts h; calls := calls h ++ [CName host id] |}).
Proof.
  intros Hh Hd. simpl. unfold bind, called, domain_of. simpl. now rewrite Hh, Hd.
Qed.

Lemma call_listDomainsID host ds h :
  assoc host (hosts h) = Some ds ->
  call (VMethod (VConnect host) "listDomainsID") [] h
  = (Ret (VList (map VInt (listed ds))),
     {| hosts := hosts h; calls := calls h ++ [CListDomainsID host] |}).
Proof.
  intros Hh. simpl. unfold bind, called. simpl. rewrite Hh.
  unfold listed. now rewrite map_map.
Qed.

Lemma call_split s (h : Hyper) :
  call (VMethod (VStr s) "split") [VStr "."] h
  = (Ret (VList (map VStr (split (Ascii.ascii_of_nat 46) s))), h).
Proof. reflexivity. Qed.

Lemma iter_run xs (h : Hyper) : VirtualConsole.iter (VList xs) h = (Ret xs, h).
Proof. reflexivity. Qed.

Lemma local_run {A : Type} name (v : A) (h : Hyper) :
  VirtualConsole.local name (Some v) h = (Ret v, h).
Proof. reflexivity. Qed.

Lemma open_run host ds h :
  assoc host (hosts h) = Some ds ->
  open (VStr host) h
  = (Ret (VConnect host), {| hosts := hosts h; calls := calls h ++ [COpen host] |}).
Proof.
  intros Hh. unfold open, bind, called. simpl. now rewrite Hh.
Qed.

Lemma for_domains_finds host shortname ds :
  forall ids h,
    assoc host (hosts h) = Some ds ->
    (forall id, In id ids -> exists d, find_domain id ds = Some d) ->
    exists h',
      VirtualConsole.for_domains (VConnect host) shortname (map VInt ids) h
      = (Ret (option_map (VDomain host) (find (named ds shortname) ids)), h')
      /\ hosts h' = hosts h.
Proof.
  induction ids as [|id ids IH]; intros h Hh Hids.
  - exists h. split; reflexivity.
  - destruct (Hids id (or_introl eq_refl)) as (d & Hd).
    cbn [map VirtualConsole.for_domains find].
    unfold named at 1. rewrite Hd.
    rewrite (bind_run _ (getattr_run (VConnect host) "lookupByID" h eq_refl)).
    rewrite (bind_run _ (call_lookupByID _ _ _ _ _ Hh Hd)).
    rewrite (bind_run _ (getattr_run (VDomain host id) "name" _ eq_refl)).
    erewrite (bind_run _); [|apply (call_name host id ds d); [exact Hh|exact Hd]].
    cbn [eqv]. destruct (String.eqb (dom_name d) shortname).
    + unfold ret. eexists. split; reflexivity.
    + destruct (IH {| hosts := hosts h;
                      calls := (calls h ++ [CLookupByID host id]) ++ [CName host id] |})
        as (h' & E & Hh'); [exact Hh|intros i Hi; apply Hids; now right|].
      exists h'. split; [exact E|exact Hh'].
Qed.

(** X14: when the status record says is_vm and names a vm_host, [__init__]
    opens the hypervisor whose name is the vm_host name up to its first
    dot, and binds [vm_domain] to the first domain that [listDomainsID]
    lists whose name is the console's short name.  When no listed domain
    has that name the console is returned all the same, with a connection
    and without a domain; the hypervisor's domains are left as they were. *)
Theorem virtual_constructor_binds_named_domain :
  forall getShortName name items v hitems host rest ds h,
    assoc "is_vm" items = Some v ->
    truthy v = true ->
    assoc "vm_host" items = Some (VDict hitems) ->
    assoc "name" hitems = Some (VStr (host ++ rest)) ->
    dotless host = true ->
    rest = EmptyString \/ (exists r, rest = String (Ascii.ascii_of_nat 46) r) ->
    assoc host (hosts h) = Some ds ->
    exists h',
      VirtualConsole.__init__ true getShortName (fun _ => VDict items) name h
      = (Ret {| VirtualConsole.shortname := Some (getShortName name);
                VirtualConsole.connection := Some (VConnect host);
                VirtualConsole.vm_domain :=
                  option_map (VDomain host)
                    (find (named ds (getShortName name)) (listed ds)) |}, h')
      /\ hosts h' = hosts h.
Proof.
  intros getShortName name items v hitems host rest ds h
    Hvm Hv Hhost Hname Hdot Hrest Hds.
  destruct (split_head host rest Hdot Hrest) as (pieces & Hsplit).
  unfold VirtualConsole.__init__. cbn [negb].
  erewrite (bind_run _); cycle 1.
  { unfold try_except.
    rewrite (bind_run _ (getattr_run (VDict items) "get" h eq_refl)).
    rewrite (bind_run (a := v) (w' := h) _); [|simpl; now rewrite Hvm].
    rewrite Hv.
    rewrite (bind_run (a := VDict hitems) (w' := h) _);
      [|unfold lift; simpl; now rewrite Hhost].
    rewrite (bind_run (a := VStr (host ++ rest)) (w' := h) _);
      [|unfold lift; simpl; now rewrite Hname].
    rewrite (bind_run _ (getattr_run (VStr (host ++ rest)) "split" h eq_refl)).
    rewrite (bind_run _ (call_split _ _)). rewrite Hsplit.
    rewrite (bind_run (a := VStr host) (w' := h) _); [|reflexivity].
    reflexivity. }
  cbv iota beta.
  rewrite (bind_run _ (local_run _ _ _)).
  rewrite (bind_run _ (open_run _ _ _ Hds)).
  rewrite (bind_run _ (getattr_run (VConnect host) "listDomainsID" _ eq_refl)).
  erewrite (bind_run _); [|apply (call_listDomainsID host ds); exact Hds].
  rewrite (bind_run _ (iter_run _ _)).
  destruct (for_domains_finds host (getShortName name) ds (listed ds)
              {| hosts := hosts h;
                 calls := (calls h ++ [COpen host]) ++ [CListDomainsID host] |})
    as (h' & E & Hh'); [exact Hds|apply listed_found|].
  rewrite (bind_run _ E). unfold ret. exists h'. split; [reflexivity|exact Hh'].
Qed.

Lemma virtual_constructor_binds_named_domain_witness :
  let domain id name state :=
    {| dom_id := id; dom_name := name; dom_state := state; dom_max_mem := 0;
       dom_memory := 0; dom_vcpus := 1; dom_cpu_time := 0 |} in
  let ds := [domain 3%Z "vpm002" 1%Z; domain 5%Z "vpm001" 5%Z; domain 7%Z "vpm001" 1%Z] in
  let h := {| hosts := [("mira001", ds)]; calls := [] |} in
  let hitems := [("name", VStr ("mira001" ++ ".front.sepia"))] in
  let items := [("is_vm", VBool true); ("vm_host", VDict hitems)] in
  assoc "is_vm" items = Some (VBool true)
  /\ truthy (VBool true) = true
  /\ assoc "vm_host" items = Some (VDict hitems)
  /\ assoc "name" hitems = Some (VStr ("mira001" ++ ".front.sepia"))
  /\ dotless "mira001" = true
  /\ (".front.sepia" = EmptyString
      \/ exists r, ".front.sepia" = String (Ascii.ascii_of_nat 46) r)
  /\ assoc "mira001" (hosts h) = Some ds
  /\ exists h',
      VirtualConsole.__init__ true (fun _ => "vpm001") (fun _ => VDict items)
        "vpm001.front.sepia" h
      = (Ret {| VirtualConsole.shortname := Some "vpm001";
                VirtualConsole.connection := Some (VConnect "mira001");
                VirtualConsole.vm_domain := Some (VDomain "mira001" 7) |}, h')
      /\ hosts h' = hosts h.
Proof.
  intros domain ds h hitems items.
  assert (Hr : ".front.sepia" = EmptyString
               \/ exists r, ".front.sepia" = String (Ascii.ascii_of_nat 46) r)
    by (right; exists "front.sepia"; reflexivity).
  repeat (split; [first [reflexivity | exact Hr]|]).
  exact (virtual_constructor_binds_named_domain (fun _ => "vpm001")
           "vpm001.front.sepia" items (VBool true) hitems "mira001" ".front.sepia"
           ds h eq_refl eq_refl eq_refl eq_refl eq_refl Hr eq_refl).
Defined.

(** ** One child at a time *)

Lemma sequential_app next evs evs' :
  sequential next (evs ++ evs')
  = sequential next evs && sequential (next + spawns evs) evs'.
Proof.
  revert next. induction evs as [|e evs IH]; intros next.
  - simpl. now rewrite Nat.add_0_r.
  - destruct e; simpl; rewrite IH, ?andb_assoc, ?Nat.add_succ_r; reflexivity.
Qed.

Lemma spawns_app evs evs' : spawns (evs ++ evs') = (spawns evs + spawns evs')%nat.
Proof.
  induction evs as [|e evs IH]; [reflexivity|]. destruct e; simpl; now rewrite IH.
Qed.

Lemma orderly_bind {A B : Type} (m : M A) (k : A -> M B) w :
  orderly m w ->
  (forall a w1, m w = (Ret a, w1) -> orderly (k a) w1) ->
  orderly (bind m k) w.
Proof.
  intros (evs & T & S & N) Hk. unfold orderly, bind.
  destruct (m w) as [[a|e|] w1] eqn:E; cbn [snd] in *.
  - destruct (Hk a w1 eq_refl) as (evs' & T' & S' & N').
    exists (evs ++ evs'). rewrite T', T, <- app_assoc. split; [reflexivity|].
    rewrite sequential_app, S, <- N, S', spawns_app, N'. split; [reflexivity|lia].
  - exists evs. auto.
  - exists evs. auto.
Qed.

Lemma orderly_try_except {A : Type} handles (m : M A) (h : Exc -> M A) w :
  orderly m w ->
  (forall e w1, m w = (Raise e, w1) -> orderly (h e) w1) ->
  orderly (try_except handles m h) w.
Proof.
  intros (evs & T & S & N) Hh. unfold orderly, try_except.
  destruct (m w) as [[a|e|] w1] eqn:E; cbn [snd] in *.
  - exists evs. auto.
  - destruct (handles e); [|exists evs; auto].
    destruct (Hh e w1 eq_refl) as (evs' & T' & S' & N').
    exists (evs ++ evs'). rewrite T', T, <- app_assoc. split; [reflexivity|].
    rewrite sequential_app, S, <- N, S', spawns_app, N'. split; [reflexivity|lia].
  - exists evs. auto.
Qed.

Lemma orderly_still {A : Type} (m : M A) w evs :
  events (snd (m w)) = events w ++ evs ->
  children (snd (m w)) = children w ->
  sequential (children w) evs = true ->
  spawns evs = 0%nat ->
  orderly m w.
Proof.
  intros T N S Z. exists evs. rewrite N, Z, Nat.add_0_r. auto.
Qed.

Lemma orderly_ret {A : Type} (a : A) w : orderly (ret a) w.
Proof.
  apply orderly_still with (evs := []); simpl; auto using app_nil_r.
Qed.

Lemma orderly_raise {A : Type} (e : Exc) w : orderly (raise e : M A) w.
Proof.
  apply orderly_still with (evs := []); simpl; auto using app_nil_r.
Qed.

Lemma orderly_time w : orderly time w.
Proof.
  apply orderly_still with (evs := []); simpl; auto using app_nil_r.
Qed.

Lemma orderly_log level template args w : orderly (log level template args) w.
Proof.
  apply orderly_still with (evs := [Log level template args]); auto.
  rewrite log_run. apply events_record.
Qed.

Lemma orderly_sleep secs w : orderly (sleep secs) w.
Proof.
  unfold sleep. destruct (lt secs 0); [apply orderly_raise|].
  apply orderly_still with (evs := [Sleep secs]); auto. apply events_slept.
Qed.

Lemma orderly_send child s w : children w = S child -> orderly (send child s) w.
Proof.
  intros H. apply orderly_still with (evs := [Send child s]); auto.
  - rewrite send_run. apply events_record.
  - simpl. now rewrite H, Nat.eqb_refl.
Qed.

Lemma orderly_expect child patterns t w :
  children w = S child -> orderly (expect child patterns t) w.
Proof.
  intros H.
  apply orderly_still
    with (evs := [Expect child patterns t
                    (fst (await patterns (replies w (waits w)) t))]); auto.
  - rewrite expect_world. apply events_heard.
  - now rewrite expect_world.
  - simpl. now rewrite H, Nat.eqb_refl.
Qed.

Lemma sequential_warning self next :
  sequential next (credentials_warning self) = true
  /\ spawns (credentials_warning self) = 0%nat.
Proof.
  unfold credentials_warning.
  destruct (PhysicalConsole.has_ipmi_credentials self); auto.
Qed.

Lemma orderly_pexpect_spawn self cmd w :
  orderly (PhysicalConsole._pexpect_spawn self cmd) w.
Proof.
  destruct (sequential_warning self (children w)) as (S & Z).
  exists (credentials_warning self
          ++ [Spawn (children w) (PhysicalConsole._build_command self cmd)]).
  rewrite pexpect_spawn_run. cbn [snd]. autorewrite with world.
  split; [apply events_started|].
  rewrite sequential_app, spawns_app, S, Z. simpl. rewrite Nat.add_0_r, Nat.eqb_refl.
  split; [reflexivity|lia].
Qed.

Lemma spawned_child self cmd w a w1 :
  PhysicalConsole._pexpect_spawn self cmd w = (Ret a, w1) -> children w1 = S a.
Proof.
  rewrite pexpect_spawn_run. intros H. injection H as <- <-.
  now autorewrite with world.
Qed.

Lemma expect_keeps_children child patterns t w r w1 :
  expect child patterns t w = (r, w1) -> children w1 = children w.
Proof.
  intros H. assert (E := expect_world child patterns t w). rewrite H in E.
  cbn [snd] in E. now rewrite E.
Qed.

Lemma orderly_exit_session self child timeout w :
  children w = S child ->
  orderly (PhysicalConsole._exit_session self child timeout) w.
Proof.
  intros H. unfold PhysicalConsole._exit_session.
  apply orderly_bind; [now apply orderly_send|intros [] w1 E1].
  rewrite send_run in E1. injection E1 as <-.
  apply orderly_bind; [apply orderly_expect; now autorewrite with world|intros r w2 E2].
  destruct (negb (Nat.eqb r 0)); [|apply orderly_ret].
  apply orderly_bind; [apply orderly_pexpect_spawn|intros; apply orderly_ret].
Qed.

Lemma orderly_login_session self t start w :
  orderly (PhysicalConsole.login_session self t start) w.
Proof.
  unfold PhysicalConsole.login_session.
  apply orderly_bind; [apply orderly_pexpect_spawn|intros child w1 E1].
  apply spawned_child in E1.
  apply orderly_bind; [now apply orderly_send|intros [] w2 E2].
  rewrite send_run in E2. injection E2 as <-.
  apply orderly_bind; [apply orderly_time|intros now w3 E3].
  rewrite time_run in E3. injection E3 as <- <-.
  apply orderly_bind; [apply orderly_expect; now autorewrite with world|intros r w4 E4].
  apply expect_keeps_children in E4.
  autorewrite with world in E4.
  apply orderly_bind;
    [apply orderly_exit_session; congruence|intros; apply orderly_ret].
Qed.

Lemma orderly_wait_for_login_while fuel self t start :
  forall w, orderly (PhysicalConsole._wait_for_login_while fuel self t start) w.
Proof.
  induction fuel as [|fuel IH]; intros w.
  - apply orderly_still with (evs := []); simpl; auto using app_nil_r.
  - cbn [PhysicalConsole._wait_for_login_while].
    apply orderly_bind; [apply orderly_time|intros now w1 E1].
    destruct (lt (now - start) t); [|apply orderly_ret].
    apply orderly_bind; [apply orderly_login_session|intros r w2 E2].
    destruct (Nat.eqb r 0); [apply orderly_ret|apply IH].
Qed.

Lemma orderly_wait_for_login fuel self timeout attempts :
  forall w, orderly (PhysicalConsole._wait_for_login fuel self timeout attempts) w.
Proof.
  unfold PhysicalConsole._wait_for_login.
  generalize (or_num timeout (PhysicalConsole.timeout self)) as t. intros t.
  induction attempts as [|n IH]; intros w.
  - apply orderly_raise.
  - cbn [PhysicalConsole._wait_for_login_for].
    apply orderly_bind; [apply orderly_time|intros start w1 E1].
    apply orderly_bind; [apply orderly_wait_for_login_while|intros returned w2 E2].
    destruct returned; [apply orderly_ret|apply IH].
Qed.

Lemma orderly_check_power_while fuel self state timeout :
  forall t total ta w,
    orderly (PhysicalConsole.check_power_while fuel self state timeout t total ta) w.
Proof.
  induction fuel as [|fuel IH]; intros t total ta w.
  - apply orderly_still with (evs := []); simpl; auto using app_nil_r.
  - cbn [PhysicalConsole.check_power_while].
    destruct (lt total timeout); [|apply orderly_ret].
    apply orderly_bind; [apply orderly_pexpect_spawn|intros c w1 E1].
    apply spawned_child in E1.
    apply orderly_bind; [now apply orderly_expect|intros r w2 E2].
    apply orderly_bind; [apply orderly_time|intros tb w3 E3].
    destruct (Nat.eqb r 0); [apply orderly_ret|].
    apply orderly_bind; [|intros; apply IH].
    destruct (Nat.eqb r 1); [|apply orderly_ret].
    destruct (lt (tb - ta) t); [apply orderly_sleep|apply orderly_ret].
Qed.

Lemma orderly_check_power fuel self state timeout w :
  orderly (PhysicalConsole.check_power fuel self state timeout) w.
Proof.
  unfold PhysicalConsole.check_power.
  apply orderly_bind; [apply orderly_time|intros; apply orderly_check_power_while].
Qed.

Lemma orderly_command_while fuel self start cmd marker :
  forall w, orderly (PhysicalConsole.command_while fuel self start cmd marker) w.
Proof.
  induction fuel as [|fuel IH]; intros w.
  - apply orderly_still with (evs := []); simpl; auto using app_nil_r.
  - cbn [PhysicalConsole.command_while].
    apply orderly_bind; [apply orderly_time|intros now w1 E1].
    destruct (lt (now - start) (PhysicalConsole.timeout self)); [|apply orderly_ret].
    apply orderly_bind; [apply orderly_pexpect_spawn|intros c w2 E2].
    apply spawned_child in E2.
    apply orderly_bind; [now apply orderly_expect|intros r w3 E3].
    destruct (Nat.eqb r 0); [apply orderly_ret|apply IH].
Qed.

Ltac orderly_steps :=
  repeat first
    [ apply orderly_ret | apply orderly_raise | apply orderly_time | apply orderly_log
    | apply orderly_sleep | apply orderly_pexpect_spawn | apply orderly_check_power
    | apply orderly_wait_for_login | apply orderly_command_while
    | apply orderly_expect; eauto using spawned_child
    | apply orderly_bind; [ | intros ? ? ? ] ].

(** X15: in every operation of the physical console, however it ends and
    whatever the sessions answer, the children are started one after the
    other, and every [send] and every wait goes to the child that was
    started last: no session is used once another has been spawned. *)
Theorem physical_operations_one_child_at_a_time :
  forall fuel self w,
    orderly (PhysicalConsole.power_cycle fuel self) w
    /\ orderly (PhysicalConsole.hard_reset fuel self) w
    /\ orderly (PhysicalConsole.power_on fuel self) w
    /\ orderly (PhysicalConsole.power_off fuel self) w
    /\ (forall interval,
           orderly (PhysicalConsole.power_off_for_interval fuel self interval) w)
    /\ (forall state timeout,
           orderly (PhysicalConsole.check_power fuel self state timeout) w)
    /\ (forall timeout, orderly (PhysicalConsole.check_status fuel self timeout) w)
    /\ (forall timeout attempts,
           orderly (PhysicalConsole._wait_for_login fuel self timeout attempts) w).
Proof.
  intros fuel self w. repeat split.
  - unfold PhysicalConsole.power_cycle. orderly_steps.
  - unfold PhysicalConsole.hard_reset. orderly_steps.
  - unfold PhysicalConsole.power_on. orderly_steps.
    match goal with |- context [negb ?ok] => destruct ok end; orderly_steps.
  - unfold PhysicalConsole.power_off. orderly_steps.
    match goal with |- context [negb ?ok] => destruct ok end; orderly_steps.
  - intros interval. unfold PhysicalConsole.power_off_for_interval. orderly_steps.
  - intros. apply orderly_check_power.
  - intros timeout. unfold PhysicalConsole.check_status.
    apply orderly_try_except; [|intros e w1 E]; orderly_steps.
  - intros. apply orderly_wait_for_login.
Qed.
